(** * Qdrant Sync MCP server: the reconciliation engine of [server.py]

    A shallow embedding of the helper functions and of the tool dispatcher
    [call_tool] of [server.py], with the properties of the probe, the
    comparison report, the confirmation gate, the sync driver and the log
    reader.

    Conventions of the embedding.
    - Python values that travel through the server are JSON values ([json]);
      a JSON number is an [int] ([Z]) or a [float], a binary64 number
      ([spec_float] with precision 53), with [inf] and [nan] as the parser
      gives them for [1e999], [Infinity] and [NaN].
    - A Python [dict] with string keys is its list of items in insertion
      order ([dict]); [.get] reads the first binding of a key.
    - An exception is a value of [exn]; a computation that may raise returns
      [Exc A].  [try ... except Exception as e] is a [match] on that result.
    - The outside world (the two stores, the clock, the sync scripts, the
      encoding of the locale, the log directory) is an [Env] of oracles;
      what the server does to the world (launching a script, reading the
      clock) is recorded in a [State] that every tool call threads through.
    - [call_tool] returns the value it hands to [json.dumps]; the rendering
      of that value as text is not modelled. *)

From Stdlib Require Import ZArith List String Ascii Bool Lia DecimalString.
From Stdlib Require Import Floats.SpecFloat.
Import ListNotations.

Open Scope string_scope.
Open Scope list_scope.
Open Scope Z_scope.

Set Warnings "-register-all".

(* ====================================================================== *)
(** * Python values, exceptions and the operations the server uses          *)
(* ====================================================================== *)

Module Py.

(** JSON values as Python objects: [None], [bool], [int], [float], [str],
    [list], [dict]. *)
Inductive json : Type :=
| JNull
| JBool (b : bool)
| JInt (n : Z)
| JFloat (f : spec_float)
| JStr (s : string)
| JList (l : list json)
| JDict (d : list (string * json)).

(** A Python dict with string keys, in insertion order. *)
Abbreviation dict := (list (string * json)) (only parsing).

(** Exceptions, each with the text [str(e)] gives. *)
Inductive exn : Type :=
| AttributeError (msg : string)
| TypeError (msg : string)
| JSONDecodeError (msg : string)
| TransportError (msg : string)
| KeyError (msg : string)
| TimeoutExpired (msg : string)
| OSError (msg : string)
| OverflowError (msg : string)
| UnicodeDecodeError (msg : string).

Definition str_exn (e : exn) : string :=
  match e with
  | AttributeError m | TypeError m | JSONDecodeError m
  | TransportError m | KeyError m | TimeoutExpired m | OSError m
  | OverflowError m | UnicodeDecodeError m => m
  end.

(** Result of a computation that may raise. *)
Inductive Exc (A : Type) : Type :=
| Normal (a : A)
| Raise (e : exn).
Arguments Normal {A} a.
Arguments Raise {A} e.

Definition bind {A B} (c : Exc A) (k : A -> Exc B) : Exc B :=
  match c with
  | Normal a => k a
  | Raise e => Raise e
  end.

Declare Scope exc_scope.
Delimit Scope exc_scope with exc.
Notation "x <- c ;; k" := (bind c (fun x => k))
  (at level 61, c at next level, right associativity) : exc_scope.

Fixpoint mapM {A B} (f : A -> Exc B) (l : list A) : Exc (list B) :=
  match l with
  | [] => Normal []
  | x :: l' =>
      (y <- f x ;;
       r <- mapM f l' ;;
       Normal (y :: r))%exc
  end.

(** [type(x).__name__] *)
Definition type_name (x : json) : string :=
  match x with
  | JNull => "NoneType"
  | JBool _ => "bool"
  | JInt _ => "int"
  | JFloat _ => "float"
  | JStr _ => "str"
  | JList _ => "list"
  | JDict _ => "dict"
  end.

(** ** Numbers

    A [float] is a binary64 number; [0.0] is [S754_zero false], [inf] is
    [S754_infinity false]. *)

Definition float_add : spec_float -> spec_float -> spec_float := SFadd 53 1024.
Definition float_sub : spec_float -> spec_float -> spec_float := SFsub 53 1024.

(** Truth value of an object, as [if x:] and [not x] take it. *)
Definition truthy (x : json) : bool :=
  match x with
  | JNull => false
  | JBool b => b
  | JInt n => negb (n =? 0)
  | JFloat f => negb (SFeqb f (S754_zero false))
  | JStr s => negb (s =? "")%string
  | JList l => match l with [] => false | _ => true end
  | JDict d => match d with [] => false | _ => true end
  end.

(** The integer a [bool] or [int] stands for in arithmetic. *)
Definition as_int (x : json) : option Z :=
  match x with
  | JInt n => Some n
  | JBool b => Some (if b then 1 else 0)
  | _ => None
  end.

(** The number a [bool], [int] or [float] stands for. *)
Inductive number : Type :=
| NInt (n : Z)
| NFloat (f : spec_float).

Definition as_number (x : json) : option number :=
  match x with
  | JFloat f => Some (NFloat f)
  | _ => option_map NInt (as_int x)
  end.

(** [float(n)], as arithmetic between an [int] and a [float] converts the
    [int]: the nearest binary64 number, ties to even. *)
Definition to_float (n : Z) : Exc spec_float :=
  match binary_normalize 53 1024 n 0 false with
  | S754_infinity _ => Raise (OverflowError "int too large to convert to float")
  | f => Normal f
  end.

(** How a [float] compares with an [int]: by their exact values. *)
Definition float_compare_int (f : spec_float) (n : Z) : option comparison :=
  match f with
  | S754_nan => None
  | S754_infinity s => Some (if s then Lt else Gt)
  | S754_zero _ => Some (0 ?= n)
  | S754_finite s m e =>
      let v := cond_Zopp s (Z.pos m) in
      Some (if 0 <=? e then v * 2 ^ e ?= n else v ?= n * 2 ^ (- e))
  end.

(** The order of two numbers; [None] when one of them is [nan]. *)
Definition number_compare (x y : number) : option comparison :=
  match x, y with
  | NInt n, NInt m => Some (n ?= m)
  | NInt n, NFloat g => option_map CompOpp (float_compare_int g n)
  | NFloat f, NInt m => float_compare_int f m
  | NFloat f, NFloat g => SFcompare f g
  end.

Definition number_eq (x y : number) : bool :=
  match number_compare x y with
  | Some Eq => true
  | _ => false
  end.

Definition number_lt (x y : number) : bool :=
  match number_compare x y with
  | Some Lt => true
  | _ => false
  end.

(** [x op y] for two numbers: on integers when both are, on floats
    otherwise. *)
Definition arith
    (int_op : Z -> Z -> Z) (float_op : spec_float -> spec_float -> spec_float)
    (x y : number) : Exc json :=
  match x, y with
  | NInt n, NInt m => Normal (JInt (int_op n m))
  | NInt n, NFloat g => (f <- to_float n ;; Normal (JFloat (float_op f g)))%exc
  | NFloat f, NInt m => (g <- to_float m ;; Normal (JFloat (float_op f g)))%exc
  | NFloat f, NFloat g => Normal (JFloat (float_op f g))
  end.

(** The object is the [nan] of the JSON parser.  The parser gives one and
    the same object for every [NaN] it reads, so that two of them are
    identical, although not equal. *)
Definition is_nan (x : json) : bool :=
  match x with
  | JFloat S754_nan => true
  | _ => false
  end.

(** ** Dictionaries with string keys *)

Fixpoint lookup (k : string) (d : dict) : option json :=
  match d with
  | [] => None
  | (k', v) :: d' => if (k =? k')%string then Some v else lookup k d'
  end.

(** [d.get(k, dflt)] on a value known to be a dict. *)
Definition dict_get (d : dict) (k : string) (dflt : json) : json :=
  match lookup k d with
  | Some v => v
  | None => dflt
  end.

(** [d[k]] on a dict. *)
Definition py_item (d : dict) (k : string) : Exc json :=
  match lookup k d with
  | Some v => Normal v
  | None => Raise (KeyError ("'" ++ k ++ "'"))
  end.

(** [x.get(k, dflt)] on an arbitrary object: only a dict has [get]. *)
Definition py_get (x : json) (k : string) (dflt : json) : Exc json :=
  match x with
  | JDict d => Normal (dict_get d k dflt)
  | _ => Raise (AttributeError
                  ("'" ++ type_name x ++ "' object has no attribute 'get'"))
  end.

(** ** Strings as sequences of code points

    A [string] holds the UTF-8 bytes of a Python [str]; a byte [10xxxxxx]
    continues the code point begun before it. *)

Definition is_continuation (c : ascii) : bool :=
  let n := N_of_ascii c in ((128 <=? n) && (n <? 192))%N.

(** Splits a string into its code points, each as a one-character [str]. *)
Fixpoint code_points (s : string) : list string :=
  match s with
  | EmptyString => []
  | String c s' =>
      match code_points s' with
      | [] => [String c EmptyString]
      | p :: ps =>
          match p with
          | String c' _ =>
              if is_continuation c' then String c p :: ps
              else String c EmptyString :: p :: ps
          | EmptyString => String c EmptyString :: ps
          end
      end
  end.

(** [len(x)] *)
Definition py_len (x : json) : Exc Z :=
  match x with
  | JList l => Normal (Z.of_nat (List.length l))
  | JDict d => Normal (Z.of_nat (List.length d))
  | JStr s => Normal (Z.of_nat (List.length (code_points s)))
  | _ => Raise (TypeError ("object of type '" ++ type_name x ++ "' has no len()"))
  end.

(** The items [for c in x] visits. *)
Definition py_iter (x : json) : Exc (list json) :=
  match x with
  | JList l => Normal l
  | JDict d => Normal (map (fun kv => JStr (fst kv)) d)
  | JStr s => Normal (map JStr (code_points s))
  | _ => Raise (TypeError ("'" ++ type_name x ++ "' object is not iterable"))
  end.

(** ** Equality and order *)

(** [a is b or a == b]: how a list or a dict compares its items with those
    of another, and how a dict or a set finds a key.  Numbers are equal by
    value ([True == 1 == 1.0]); [nan] is equal to nothing, and identical
    to itself. *)
Fixpoint py_same (a b : json) {struct a} : bool :=
  match a, b with
  | JNull, JNull => true
  | JStr s, JStr t => (s =? t)%string
  | JList l, JList m =>
      (fix go (l m : list json) {struct l} : bool :=
         match l, m with
         | [], [] => true
         | x :: l', y :: m' => py_same x y && go l' m'
         | _, _ => false
         end) l m
  | JDict d, JDict e =>
      (List.length d =? List.length e)%nat &&
      (fix go (d : list (string * json)) {struct d} : bool :=
         match d with
         | [] => true
         | (k, v) :: d' =>
             match lookup k e with
             | Some w => py_same v w
             | None => false
             end && go d'
         end) d
  | _, _ =>
      match as_number a, as_number b with
      | Some x, Some y => (is_nan a && is_nan b) || number_eq x y
      | _, _ => false
      end
  end.

(** [a == b]; never raises on JSON values. *)
Definition py_eq (a b : json) : bool := negb (is_nan a) && py_same a b.

Definition not_comparable (a b : json) : exn :=
  TypeError ("'<' not supported between instances of '" ++ type_name a
             ++ "' and '" ++ type_name b ++ "'").

(** [a < b]: numbers by value, strings by code point, lists item by item;
    anything else raises [TypeError]. *)
Fixpoint py_lt (a b : json) {struct a} : Exc bool :=
  match a, b with
  | JStr s, JStr t => Normal (String.ltb s t)
  | JList l, JList m =>
      (fix go (l m : list json) {struct l} : Exc bool :=
         match l, m with
         | [], [] => Normal false
         | [], _ :: _ => Normal true
         | _ :: _, [] => Normal false
         | x :: l', y :: m' => if py_same x y then go l' m' else py_lt x y
         end) l m
  | _, _ =>
      match as_number a, as_number b with
      | Some x, Some y => Normal (number_lt x y)
      | _, _ => Raise (not_comparable a b)
      end
  end.

(** ** [sorted]

    A stable insertion sort that stops at the first comparison that
    raises.  On keys that [<] orders totally (strings, or numbers without
    [nan]) this is the list [sorted] returns; on two or more keys of which
    one is [None] or a dict, or of which one is a string and another a
    number, every comparison sort, this one and CPython's, raises
    [TypeError].  Among keys that are lists of which two cannot be
    compared, CPython may make other comparisons than the ones made here;
    such keys are not hashable, and the comparison of collections raises
    on them in any case ([compare_all_unhashable_name]).  Among numbers
    with a [nan], which [<] does not order, the order CPython leaves is
    that of its merge sort and may differ from the one computed here; no
    property below depends on the order of such keys. *)
Section Sorted.
Context {A : Type} (key : A -> json).

Fixpoint insert_sorted (x : A) (l : list A) : Exc (list A) :=
  match l with
  | [] => Normal [x]
  | y :: l' =>
      (b <- py_lt (key x) (key y) ;;
       if b then Normal (x :: y :: l')
       else (r <- insert_sorted x l' ;; Normal (y :: r)))%exc
  end.

Definition py_sorted (l : list A) : Exc (list A) :=
  fold_left (fun acc x => (s <- acc ;; insert_sorted x s)%exc) l (Normal []).
End Sorted.

(** [sorted(l, reverse=True)] on a list of strings. *)
Fixpoint insert_desc (x : string) (l : list string) : list string :=
  match l with
  | [] => [x]
  | y :: l' => if String.ltb y x then x :: y :: l' else y :: insert_desc x l'
  end.

Definition sorted_reverse (l : list string) : list string :=
  fold_left (fun acc x => insert_desc x acc) l [].

(** [l[:n]] for an integer [n], negative [n] counting from the end. *)
Definition slice_to {A} (l : list A) (n : Z) : list A :=
  if 0 <=? n then firstn (Z.to_nat n) l
  else firstn (List.length l - Z.to_nat (- n))%nat l.

(** ** Dictionaries and sets keyed by JSON values

    The keys of a dict and the members of a set are hashable objects,
    identified up to [is] and [==] ([py_same]); a list or a dict is not
    hashable. *)

Definition hashable (k : json) : bool :=
  match k with
  | JList _ | JDict _ => false
  | _ => true
  end.

Definition unhashable (k : json) : exn :=
  TypeError ("unhashable type: '" ++ type_name k ++ "'").

Abbreviation keyed V := (list (json * V)) (only parsing).

Fixpoint keyed_find {V} (d : keyed V) (k : json) : option V :=
  match d with
  | [] => None
  | (k', v) :: d' => if py_same k' k then Some v else keyed_find d' k
  end.

(** [d.get(k, dflt)] *)
Definition keyed_get {V} (d : keyed V) (k : json) (dflt : V) : V :=
  match keyed_find d k with
  | Some v => v
  | None => dflt
  end.

(** [d[k] = v]: a key already present keeps its place and takes the new
    value. *)
Fixpoint keyed_set {V} (d : keyed V) (k : json) (v : V) : keyed V :=
  match d with
  | [] => [(k, v)]
  | (k', v') :: d' =>
      if py_same k' k then (k', v) :: d' else (k', v') :: keyed_set d' k v
  end.

Definition keys {V} (d : keyed V) : list json := map fst d.

(** [set(a) | set(b)] for two lists of pairwise different keys: the members
    of [a], then those of [b] that [a] lacks. *)
Definition set_union (a b : list json) : list json :=
  a ++ filter (fun k => negb (existsb (py_same k) a)) b.

(** ** Arithmetic *)

Definition unsupported (op : string) (a b : json) : exn :=
  TypeError ("unsupported operand type(s) for " ++ op ++ ": '" ++ type_name a
             ++ "' and '" ++ type_name b ++ "'").

(** [acc += x] for an accumulator that holds a number. *)
Definition py_iadd (acc x : json) : Exc json :=
  match as_number acc, as_number x with
  | Some a, Some b => arith Z.add float_add a b
  | _, _ => Raise (unsupported "+=" acc x)
  end.

(** [a - b] *)
Definition py_sub (a b : json) : Exc json :=
  match as_number a, as_number b with
  | Some x, Some y => arith Z.sub float_sub x y
  | _, _ => Raise (unsupported "-" a b)
  end.

(** [min(x, 10)]: [10] replaces [x] when [10 < x]. *)
Definition py_min_10 (x : json) : Exc json :=
  match as_number x with
  | Some n => Normal (if number_lt (NInt 10) n then JInt 10 else x)
  | None => Raise (not_comparable (JInt 10) x)
  end.

(** The bound [n] of the slice [l[:x]] for a number [x]: an [int] or a
    [bool] is taken as it is, a [float] is refused. *)
Definition slice_bound (x : json) : Exc Z :=
  match as_int x with
  | Some n => Normal n
  | None =>
      Raise (TypeError
               "slice indices must be integers or None or have an __index__ method")
  end.

(** [str(n)] for an integer. *)
Definition str_int (n : Z) : string := NilZero.string_of_int (Z.to_int n).

(** ** [str.replace] and paths *)

Fixpoint replace_from (old new : string) (skip : nat) (s : string) : string :=
  match s with
  | EmptyString => EmptyString
  | String c s' =>
      match skip with
      | S k => replace_from old new k s'
      | O =>
          if String.prefix old s
          then new ++ replace_from old new (String.length old - 1)%nat s'
          else String c (replace_from old new O s')
      end
  end.

(** [s.replace(old, new)] for a non-empty [old]. *)
Definition py_replace (s old new : string) : string :=
  replace_from old new O s.

(** [os.path.basename]: what follows the last slash. *)
Fixpoint last_segment (acc p : string) : string :=
  match p with
  | EmptyString => acc
  | String c p' =>
      if (c =? "/")%char then last_segment EmptyString p'
      else last_segment (acc ++ String c EmptyString) p'
  end.

Definition basename (p : string) : string := last_segment EmptyString p.

(** [os.path.join(a, b)] for a relative [b]. *)
Fixpoint ends_with_slash (a : string) : bool :=
  match a with
  | EmptyString => false
  | String c EmptyString => (c =? "/")%char
  | String _ a' => ends_with_slash a'
  end.

Definition path_join (a b : string) : string :=
  if (a =? "")%string then b
  else if ends_with_slash a then a ++ b
  else a ++ "/" ++ b.

(** ** [bytes.decode]

    A [string] also holds the bytes a child process writes.  Decoding
    gives the text, or the description of the [UnicodeDecodeError]. *)

Inductive decoded : Type :=
| Text (s : string)
| Undecodable (description : string).

(** The second byte of a sequence of three or four bytes that begins with
    the byte [n1]: a continuation byte that makes neither an overlong form,
    nor a surrogate, nor a code point above U+10FFFF. *)
Definition second_byte (n1 : N) (c2 : ascii) : bool :=
  let n2 := N_of_ascii c2 in
  (is_continuation c2
   && negb ((n1 =? 224) && (n2 <? 160))
   && negb ((n1 =? 237) && (159 <? n2))
   && negb ((n1 =? 240) && (n2 <? 144))
   && negb ((n1 =? 244) && (143 <? n2)))%N.

(** The first place where the bytes are not UTF-8: where the faulty
    sequence starts, where it stops, and what is wrong with it. *)
Fixpoint utf8_error (pos : nat) (s : string) : option (nat * nat * string) :=
  match s with
  | EmptyString => None
  | String c1 s1 =>
      let n1 := N_of_ascii c1 in
      if (n1 <? 128)%N then utf8_error (1 + pos) s1
      else if ((n1 <? 194) || (244 <? n1))%N
      then Some (pos, 1 + pos, "invalid start byte")%nat
      else
        match s1 with
        | EmptyString => Some (pos, 1 + pos, "unexpected end of data")%nat
        | String c2 s2 =>
            if (n1 <? 224)%N then
              if is_continuation c2 then utf8_error (2 + pos) s2
              else Some (pos, 1 + pos, "invalid continuation byte")%nat
            else if negb (second_byte n1 c2)
            then Some (pos, 1 + pos, "invalid continuation byte")%nat
            else
              match s2 with
              | EmptyString => Some (pos, 2 + pos, "unexpected end of data")%nat
              | String c3 s3 =>
                  if negb (is_continuation c3)
                  then Some (pos, 2 + pos, "invalid continuation byte")%nat
                  else if (n1 <? 240)%N then utf8_error (3 + pos) s3
                  else
                    match s3 with
                    | EmptyString =>
                        Some (pos, 3 + pos, "unexpected end of data")%nat
                    | String c4 s4 =>
                        if is_continuation c4 then utf8_error (4 + pos) s4
                        else Some (pos, 3 + pos, "invalid continuation byte")%nat
                    end
              end
        end
  end.

Definition hex_digit (n : N) : string :=
  String.substring (N.to_nat n) 1 "0123456789abcdef".

(** [f"0x{byte:02x}"] *)
Definition hex_byte (c : ascii) : string :=
  let n := N_of_ascii c in
  "0x" ++ hex_digit (n / 16) ++ hex_digit (n mod 16).

(** [data.decode("utf-8")] *)
Definition utf8_decode (data : string) : decoded :=
  match utf8_error 0 data with
  | None => Text data
  | Some (start, stop, reason) =>
      Undecodable
        ("'utf-8' codec can't decode "
         ++ (if (stop =? 1 + start)%nat
             then "byte " ++ hex_byte (match String.get start data with
                                       | Some c => c
                                       | None => zero
                                       end)
                  ++ " in position " ++ str_int (Z.of_nat start)
             else "bytes in position " ++ str_int (Z.of_nat start)
                  ++ "-" ++ str_int (Z.of_nat stop - 1))
         ++ ": " ++ reason)
  end.

End Py.

(* ====================================================================== *)
(** * The world outside the server                                          *)
(* ====================================================================== *)

Module World.
Import Py.

(** The two requests the server sends to a store: [GET {url}/collections]
    and [GET {url}/collections/{name}].  The path is kept structured
    rather than formatted into the text of a URL. *)
Inductive request : Type :=
| CollectionsIndex
| CollectionDetail (name : json).

(** What [response.json()] gives: the parsed body, or the exception the
    parser raises on a body that is not JSON. *)
Inductive body : Type :=
| Parsed (data : json)
| Unparsable (e : exn).

Record response : Type := mkResponse {
  status_code : Z;
  content : body
}.

Definition response_json (r : response) : Exc json :=
  match content r with
  | Parsed data => Normal data
  | Unparsable e => Raise e
  end.

(** The [CompletedProcess] of [subprocess.run] with captured text streams. *)
Record CompletedProcess : Type := mkCompleted {
  returncode : Z;
  stdout : string;
  stderr : string
}.

(** How a child process ended: its exit code and the bytes it wrote to
    its two streams. *)
Record ChildExit : Type := mkExit {
  exit_code : Z;
  stdout_bytes : string;
  stderr_bytes : string
}.

(** Configuration constants and the oracles for every call that leaves
    the process.  An oracle answers [Raise e] when the call raises. *)
Record Env : Type := mkEnv {
  SOURCE_REST_URL : string;
  TARGET_REST_URL : string;
  TARGET_API_KEY : string;
  SYNC_SCRIPT : string;
  SYNC_SCRIPT_REVERSE : string;
  LOG_DIR : string;
  (** [client.get(url + path, headers=headers)] with a 10 second timeout *)
  client_get : string -> request -> list (string * string) -> Exc response;
  (** The child process that [subprocess.run(cmd, capture_output=True,
      timeout=t)] launches and waits for: how it ended, or the exception
      raised without it, [TimeoutExpired] when the time is up before the
      child ends, another one when the child cannot be launched. *)
  run_child : list json -> Z -> Exc ChildExit;
  (** [data.decode(encoding)] for the encoding of the locale *)
  locale_decode : string -> decoded;
  (** [datetime.now().isoformat()], by the number of earlier readings *)
  now_isoformat : nat -> string;
  (** [glob.glob(pattern)] *)
  glob_glob : string -> list string;
  (** [open(path, 'r').read()] *)
  read_text : string -> Exc string;
  (** [os.path.getsize(path)] *)
  getsize : string -> Exc Z
}.

(** What the server has done to the world so far: the command lines handed
    to [subprocess.run], oldest first, and the number of clock readings. *)
Record State : Type := mkState {
  spawned : list (list json);
  clock_reads : nat
}.

Definition initial : State := mkState [] 0.

(** [s.replace("\r\n", "\n").replace("\r", "\n")]: every end of line
    written as a line feed. *)
Definition universal_newlines (s : string) : string :=
  let cr := String (ascii_of_nat 13) EmptyString in
  let lf := String (ascii_of_nat 10) EmptyString in
  py_replace (py_replace s (cr ++ lf) lf) cr lf.

(** [Popen._translate_newlines]: the text of the bytes of a stream. *)
Definition translate_newlines (env : Env) (data : string) : Exc string :=
  match locale_decode env data with
  | Text s => Normal (universal_newlines s)
  | Undecodable description => Raise (UnicodeDecodeError description)
  end.

(** [subprocess.run(cmd, capture_output=True, text=True, timeout=t)]: once
    the child has ended, what it wrote is decoded, the standard output
    first. *)
Definition subprocess_run (env : Env) (cmd : list json) (timeout : Z)
    : Exc CompletedProcess :=
  (child <- run_child env cmd timeout ;;
   out <- translate_newlines env (stdout_bytes child) ;;
   err <- translate_newlines env (stderr_bytes child) ;;
   Normal (mkCompleted (exit_code child) out err))%exc.

(** Computations of the dispatcher: they thread the state and may raise. *)
Definition M (A : Type) : Type := State -> Exc A * State.

Definition ret {A} (a : A) : M A := fun st => (Normal a, st).

Definition bindM {A B} (c : M A) (k : A -> M B) : M B :=
  fun st =>
    match c st with
    | (Normal a, st') => k a st'
    | (Raise e, st') => (Raise e, st')
    end.

(** A computation that may raise but leaves the world alone. *)
Definition lift {A} (c : Exc A) : M A := fun st => (c, st).

Declare Scope m_scope.
Delimit Scope m_scope with M.
Notation "x <- c ;; k" := (bindM c (fun x => k))
  (at level 61, c at next level, right associativity) : m_scope.

End World.

(* ====================================================================== *)
(** * server.py                                                             *)
(* ====================================================================== *)

Import Py World.

Section Server.
Variable env : Env.

(** ** Helper functions *)

(** [headers = {}; if api_key: headers["api-key"] = api_key] *)
Definition headers_for (api_key : option string) : list (string * string) :=
  match api_key with
  | Some k => if truthy (JStr k) then [("api-key", k)] else []
  | None => []
  end.

(** [check_qdrant_connectivity]: the probe of one store. *)
Definition check_qdrant_connectivity
    (url : string) (api_key : option string) : dict :=
  let headers := headers_for api_key in
  let attempt : Exc dict :=
    (response <- client_get env url CollectionsIndex headers ;;
     if status_code response =? 200 then
       data <- response_json response ;;
       result <- py_get data "result" (JDict []) ;;
       collections <- py_get result "collections" (JList []) ;;
       collection_count <- py_len collections ;;
       items <- py_iter collections ;;
       names <- mapM (fun c => py_get c "name" JNull) items ;;
       Normal [("status", JStr "connected");
               ("url", JStr url);
               ("collection_count", JInt collection_count);
               ("collections", JList names)]
     else
       Normal [("status", JStr "error");
               ("url", JStr url);
               ("error", JStr ("HTTP " ++ str_int (status_code response)))])%exc
  in
  match attempt with
  | Normal report => report
  | Raise e =>
      [("status", JStr "unreachable");
       ("url", JStr url);
       ("error", JStr (str_exn e))]
  end.

(** [get_collection_info]: the statistics of one collection. *)
Definition get_collection_info
    (url : string) (name : json) (api_key : option string) : dict :=
  let headers := headers_for api_key in
  let attempt : Exc dict :=
    (response <- client_get env url (CollectionDetail name) headers ;;
     if status_code response =? 200 then
       data <- response_json response ;;
       result <- py_get data "result" (JDict []) ;;
       status <- py_get result "status" (JStr "unknown") ;;
       points_count <- py_get result "points_count" (JInt 0) ;;
       vectors_count <- py_get result "vectors_count" (JInt 0) ;;
       indexed_vectors_count <- py_get result "indexed_vectors_count" (JInt 0) ;;
       Normal [("name", name);
               ("status", status);
               ("points_count", points_count);
               ("vectors_count", vectors_count);
               ("indexed_vectors_count", indexed_vectors_count)]
     else
       Normal [("name", name);
               ("error", JStr ("HTTP " ++ str_int (status_code response)))])%exc
  in
  match attempt with
  | Normal info => info
  | Raise e => [("name", name); ("error", JStr (str_exn e))]
  end.

(** [get_all_collections_with_counts]: the inventory of one store with the
    statistics of every collection, sorted by name; empty when the store
    is not connected. *)
Definition get_all_collections_with_counts
    (url : string) (api_key : option string) : Exc (list dict) :=
  let conn := check_qdrant_connectivity url api_key in
  if negb (py_eq (dict_get conn "status" JNull) (JStr "connected"))
  then Normal []
  else
    (names <- py_iter (dict_get conn "collections" (JList [])) ;;
     let collections :=
       map (fun name => get_collection_info url name api_key) names in
     py_sorted (fun x => dict_get x "name" (JStr "")) collections)%exc.

(** The command line of [run_sync_script]: [script_path or SYNC_SCRIPT],
    then the arguments when there are any. *)
Definition sync_command
    (args : option (list json)) (script_path : option string) : list json :=
  let script :=
    match script_path with
    | Some p => if truthy (JStr p) then p else SYNC_SCRIPT env
    | None => SYNC_SCRIPT env
    end in
  match args with
  | Some a => if truthy (JList a) then [JStr script] ++ a else [JStr script]
  | None => [JStr script]
  end.

(** [run_sync_script]: the sync driver, with its 1800 second timeout. *)
Definition run_sync_script
    (args : option (list json)) (script_path : option string) : M dict :=
  fun st =>
    let cmd := sync_command args script_path in
    let st' := mkState (spawned st ++ [cmd]) (clock_reads st) in
    match subprocess_run env cmd 1800 with
    | Normal result =>
        (Normal [("success", JBool (returncode result =? 0));
                 ("returncode", JInt (returncode result));
                 ("stdout", JStr (stdout result));
                 ("stderr", JStr (stderr result))], st')
    | Raise (TimeoutExpired _) =>
        (Normal [("success", JBool false);
                 ("error", JStr "Sync operation timed out after 30 minutes")],
         st')
    | Raise e =>
        (Normal [("success", JBool false); ("error", JStr (str_exn e))], st')
    end.

(** The entry [get_recent_logs] builds for one log file. *)
Definition log_entry (log_file : string) : dict :=
  let attempt : Exc dict :=
    (content <- read_text env log_file ;;
     let basename := basename log_file in
     let timestamp :=
       py_replace (py_replace basename "qdrant-sync-" "") ".log" "" in
     size_bytes <- getsize env log_file ;;
     Normal [("file", JStr log_file);
             ("timestamp", JStr timestamp);
             ("size_bytes", JInt size_bytes);
             ("content", JStr content)])%exc
  in
  match attempt with
  | Normal entry => entry
  | Raise e => [("file", JStr log_file); ("error", JStr (str_exn e))]
  end.

(** [get_recent_logs]: the log reader. *)
Definition get_recent_logs (count : Z) : list dict :=
  let pattern := path_join (LOG_DIR env) "qdrant-sync-*.log" in
  let log_files := slice_to (sorted_reverse (glob_glob env pattern)) count in
  map log_entry log_files.

(** [datetime.now().isoformat()] *)
Definition now : M string :=
  fun st =>
    (Normal (now_isoformat env (clock_reads st)),
     mkState (spawned st) (S (clock_reads st))).

(** ** The tool dispatcher *)

(** The stand-in for a collection that one side does not list. *)
Definition missing_info : dict :=
  [("points_count", JInt 0); ("missing", JBool true)].

(** [{c["name"]: c for c in collections}] *)
Definition by_name (collections : list dict) : Exc (keyed dict) :=
  fold_left
    (fun acc c =>
       (d <- acc ;;
        k <- py_item c "name" ;;
        if hashable k then Normal (keyed_set d k c) else Raise (unhashable k))%exc)
    collections (Normal []).

(** The variables the comparison loop updates. *)
Record totals : Type := mkTotals {
  comparison : list dict;
  total_local_points : json;
  total_vps_points : json;
  out_of_sync : Z
}.

(** One turn of the loop [for name in sorted(all_names)]. *)
Definition compare_one
    (local_dict vps_dict : keyed dict) (acc : totals) (name : json)
    : Exc totals :=
  let local_info := keyed_get local_dict name missing_info in
  let vps_info := keyed_get vps_dict name missing_info in
  let local_points := dict_get local_info "points_count" (JInt 0) in
  let vps_points := dict_get vps_info "points_count" (JInt 0) in
  (total_local <- py_iadd (total_local_points acc) local_points ;;
   total_vps <- py_iadd (total_vps_points acc) vps_points ;;
   let in_sync :=
     py_eq local_points vps_points
     && negb (truthy (dict_get local_info "missing" JNull))
     && negb (truthy (dict_get vps_info "missing" JNull)) in
   let out := if negb in_sync then out_of_sync acc + 1 else out_of_sync acc in
   difference <- py_sub local_points vps_points ;;
   Normal (mkTotals
             (comparison acc ++
              [[("name", name);
                ("local_points", local_points);
                ("vps_points", vps_points);
                ("difference", difference);
                ("in_sync", JBool in_sync);
                ("local_only", dict_get vps_info "missing" (JBool false));
                ("vps_only", dict_get local_info "missing" (JBool false))]])
             total_local total_vps out))%exc.

Definition compare_loop
    (local_dict vps_dict : keyed dict) (names : list json) : Exc totals :=
  fold_left
    (fun acc name => (a <- acc ;; compare_one local_dict vps_dict a name)%exc)
    names (Normal (mkTotals [] (JInt 0) (JInt 0) 0)).

(** [qdrant_compare_collections] without a collection name. *)
Definition compare_all : M dict :=
  (local_collections <-
     lift (get_all_collections_with_counts (SOURCE_REST_URL env) None) ;;
   vps_collections <-
     lift (get_all_collections_with_counts
             (TARGET_REST_URL env) (Some (TARGET_API_KEY env))) ;;
   local_dict <- lift (by_name local_collections) ;;
   vps_dict <- lift (by_name vps_collections) ;;
   let all_names := set_union (keys local_dict) (keys vps_dict) in
   names <- lift (py_sorted (fun k => k) all_names) ;;
   t <- lift (compare_loop local_dict vps_dict names) ;;
   timestamp <- now ;;
   total_difference <-
     lift (py_sub (total_local_points t) (total_vps_points t)) ;;
   ret [("timestamp", JStr timestamp);
        ("summary",
         JDict [("total_collections", JInt (Z.of_nat (List.length all_names)));
                ("local_collections", JInt (Z.of_nat (List.length local_dict)));
                ("vps_collections", JInt (Z.of_nat (List.length vps_dict)));
                ("out_of_sync", JInt (out_of_sync t));
                ("total_local_points", total_local_points t);
                ("total_vps_points", total_vps_points t);
                ("total_difference", total_difference)]);
        ("collections", JList (map JDict (comparison t)))])%M.

(** [qdrant_compare_collections] with a collection name. *)
Definition compare_single (collection_name : json) : M dict :=
  let local_info :=
    get_collection_info (SOURCE_REST_URL env) collection_name None in
  let vps_info :=
    get_collection_info
      (TARGET_REST_URL env) collection_name (Some (TARGET_API_KEY env)) in
  let local_points := dict_get local_info "points_count" (JInt 0) in
  let vps_points := dict_get vps_info "points_count" (JInt 0) in
  (difference <- lift (py_sub local_points vps_points) ;;
   ret [("collection", collection_name);
        ("local", JDict local_info);
        ("vps", JDict vps_info);
        ("in_sync", JBool (py_eq local_points vps_points));
        ("difference", difference)])%M.

(** The count [qdrant_sync_logs] hands to [get_recent_logs]:
    [min(arguments.get("count", 3), 10)], or [1] when [latest_only] holds,
    as the slice [[:count]] of the log reader takes it.  The slice is the
    first use of the count: a count that is no integer makes it raise. *)
Definition effective_count (arguments : dict) : Exc Z :=
  (count <- py_min_10 (dict_get arguments "count" (JInt 3)) ;;
   let latest_only := dict_get arguments "latest_only" (JBool false) in
   slice_bound (if truthy latest_only then JInt 1 else count))%exc.

(** [call_tool]: the value given to [json.dumps] for a tool name and its
    arguments. *)
Definition call_tool (name : string) (arguments : dict) : M json :=
  if (name =? "qdrant_sync_status")%string then
    let local_status := check_qdrant_connectivity (SOURCE_REST_URL env) None in
    let vps_status :=
      check_qdrant_connectivity
        (TARGET_REST_URL env) (Some (TARGET_API_KEY env)) in
    (timestamp <- now ;;
     ret (JDict
            [("timestamp", JStr timestamp);
             ("local", JDict local_status);
             ("vps", JDict vps_status);
             ("sync_ready",
              JBool (py_eq (dict_get local_status "status" JNull)
                           (JStr "connected")
                     && py_eq (dict_get vps_status "status" JNull)
                              (JStr "connected")))]))%M
  else if (name =? "qdrant_sync_all")%string then
    let confirm := dict_get arguments "confirm" (JBool false) in
    if negb (truthy confirm) then
      ret (JDict
             [("error",
               JStr "Confirmation required. Set confirm=true to proceed with full sync.");
              ("hint",
               JStr "This will sync all collections from local to VPS and may take 5-10 minutes.")])
    else
      (result <- run_sync_script None None ;; ret (JDict result))%M
  else if (name =? "qdrant_sync_collection")%string then
    let collection_name := dict_get arguments "collection_name" JNull in
    if negb (truthy collection_name) then
      ret (JDict [("error", JStr "collection_name is required")])
    else
      (result <-
         run_sync_script (Some [JStr "--collection"; collection_name]) None ;;
       ret (JDict result))%M
  else if (name =? "qdrant_sync_dry_run")%string then
    (result <- run_sync_script (Some [JStr "--dry-run"]) None ;;
     ret (JDict result))%M
  else if (name =? "qdrant_sync_logs")%string then
    (count <- lift (effective_count arguments) ;;
     let logs := get_recent_logs count in
     ret (JList (map JDict logs)))%M
  else if (name =? "qdrant_compare_collections")%string then
    let collection_name := dict_get arguments "collection_name" JNull in
    if truthy collection_name then
      (result <- compare_single collection_name ;; ret (JDict result))%M
    else
      (result <- compare_all ;; ret (JDict result))%M
  else if (name =? "qdrant_sync_from_vps_all")%string then
    let confirm := dict_get arguments "confirm" (JBool false) in
    if negb (truthy confirm) then
      ret (JDict
             [("error",
               JStr "Confirmation required. Set confirm=true to proceed with full sync from VPS.");
              ("hint",
               JStr "This will sync all collections from VPS to local and may take 5-10 minutes.")])
    else
      (result <- run_sync_script (Some []) (Some (SYNC_SCRIPT_REVERSE env)) ;;
       ret (JDict result))%M
  else if (name =? "qdrant_sync_from_vps_collection")%string then
    let collection_name := dict_get arguments "collection_name" JNull in
    if negb (truthy collection_name) then
      ret (JDict [("error", JStr "collection_name is required")])
    else
      (result <-
         run_sync_script (Some [JStr "--collection"; collection_name])
                         (Some (SYNC_SCRIPT_REVERSE env)) ;;
       ret (JDict result))%M
  else if (name =? "qdrant_sync_from_vps_dry_run")%string then
    (result <-
       run_sync_script (Some [JStr "--dry-run"]) (Some (SYNC_SCRIPT_REVERSE env)) ;;
     ret (JDict result))%M
  else
    ret (JDict [("error", JStr ("Unknown tool: " ++ name))]).

End Server.

(* ====================================================================== *)
(** * Vocabulary of the properties                                          *)
(* ====================================================================== *)

(** The value of a key of a report, when the report is a dict that has it. *)
Definition field (k : string) (x : json) : option json :=
  match x with
  | JDict d => lookup k d
  | _ => None
  end.

(** A report without its [timestamp] key. *)
Definition without_timestamp (x : json) : json :=
  match x with
  | JDict d => JDict (filter (fun kv => negb (fst kv =? "timestamp")%string) d)
  | _ => x
  end.

Definition outcome_without_timestamp (r : Exc json) : Exc json :=
  match r with
  | Normal x => Normal (without_timestamp x)
  | Raise e => Raise e
  end.

(** Two worlds whose stores answer every request alike. *)
Definition same_stores (env1 env2 : Env) : Prop :=
  SOURCE_REST_URL env1 = SOURCE_REST_URL env2 /\
  TARGET_REST_URL env1 = TARGET_REST_URL env2 /\
  TARGET_API_KEY env1 = TARGET_API_KEY env2 /\
  forall url req headers,
    client_get env1 url req headers = client_get env2 url req headers.

(** The reports of two calls of one tool, the second made in the state the
    first leaves. *)
Definition twice (env : Env) (name : string) (arguments : dict) (st : State)
    : Exc json * Exc json :=
  let first := call_tool env name arguments st in
  let second := call_tool env name arguments (snd first) in
  (fst first, fst second).

(** The number of entries of a comparison whose [in_sync] is [False]. *)
Definition count_out_of_sync (entries : list json) : Z :=
  Z.of_nat
    (List.length
       (filter
          (fun e =>
             match field "in_sync" e with
             | Some (JBool false) => true
             | _ => false
             end)
          entries)).

(** The sum of a field over the entries of a comparison, added up from
    [0] in the order of the entries as [+=] does. *)
Definition sum_field (k : string) (entries : list json) : Exc json :=
  fold_left
    (fun acc e =>
       (a <- acc ;;
        match field k e with
        | Some v => py_iadd a v
        | None => Normal a
        end)%exc)
    entries (Normal (JInt 0)).

(** Both point counts of an entry of a comparison are integers. *)
Definition integer_points (e : json) : bool :=
  match field "local_points" e, field "vps_points" e with
  | Some l, Some v =>
      match as_int l, as_int v with
      | Some _, Some _ => true
      | _, _ => false
      end
  | _, _ => false
  end.

(** The statistics request for [name] does not succeed: the store answers
    with a status other than 200, or the request raises. *)
Definition stat_fails
    (env : Env) (url : string) (name : json) (api_key : option string) : Prop :=
  match client_get env url (CollectionDetail name) (headers_for api_key) with
  | Normal response => status_code response <> 200
  | Raise _ => True
  end.

(** The three shapes of a connectivity report. *)
Definition connected_report (url : string) (names : list json) : dict :=
  [("status", JStr "connected");
   ("url", JStr url);
   ("collection_count", JInt (Z.of_nat (List.length names)));
   ("collections", JList names)].

Definition error_report (url : string) (code : Z) : dict :=
  [("status", JStr "error");
   ("url", JStr url);
   ("error", JStr ("HTTP " ++ str_int code))].

Definition unreachable_report (url : string) (description : string) : dict :=
  [("status", JStr "unreachable");
   ("url", JStr url);
   ("error", JStr description)].

(** What one side's dict of collections may hold for a name: statistics
    built by [get_collection_info], which have no [missing] key. *)
Definition plain_info (info : dict) : Prop := lookup "missing" info = None.

Definition plain_values (d : keyed dict) : Prop :=
  forall k v, In (k, v) d -> plain_info v.

(** The invariant of a comparison entry: in sync means present on both
    sides, and with no difference when the points are counted in
    integers. *)
Definition entry_consistent (e : json) : Prop :=
  field "in_sync" e = Some (JBool true) ->
  field "local_only" e = Some (JBool false) /\
  field "vps_only" e = Some (JBool false) /\
  (integer_points e = true -> field "difference" e = Some (JInt 0)).

(** What the loop keeps true of its variables. *)
Record loop_invariant (t : totals) : Prop := mkInvariant {
  inv_out_of_sync :
    out_of_sync t = count_out_of_sync (map JDict (comparison t));
  inv_local :
    sum_field "local_points" (map JDict (comparison t)) =
    Normal (total_local_points t);
  inv_vps :
    sum_field "vps_points" (map JDict (comparison t)) =
    Normal (total_vps_points t);
  inv_entries :
    forall e, In e (map JDict (comparison t)) -> entry_consistent e
}.

(** One side of a comparison is well formed when every name the probe
    lists is a string and the statistics of every listed collection give
    an integer for its points. *)
Definition well_formed_side
    (env : Env) (url : string) (api_key : option string) : Prop :=
  forall names name,
    lookup "collections" (check_qdrant_connectivity env url api_key) =
      Some (JList names) ->
    In name names ->
    (exists s, name = JStr s) /\
    as_int (dict_get (get_collection_info env url name api_key)
              "points_count" (JInt 0)) <> None.

(** Statistics under a string name with an integer for the points. *)
Definition countable_info (info : dict) : Prop :=
  (exists s, lookup "name" info = Some (JStr s)) /\
  as_int (dict_get info "points_count" (JInt 0)) <> None.

(* ====================================================================== *)
(** * Test worlds                                                           *)
(* ====================================================================== *)

Module Fixture.

(** The body of a collection listing with the given names. *)
Definition inventory_body (names : list string) : json :=
  JDict [("result",
          JDict [("collections",
                  JList (map (fun n => JDict [("name", JStr n)]) names))]);
         ("status", JStr "ok")].

(** The body of the details of a collection with [points] points. *)
Definition detail_body (points : Z) : json :=
  JDict [("result",
          JDict [("status", JStr "green");
                 ("points_count", JInt points);
                 ("vectors_count", JInt points);
                 ("indexed_vectors_count", JInt 0)]);
         ("status", JStr "ok")].

Definition not_found : response :=
  mkResponse 404
    (Parsed (JDict [("status", JDict [("error", JStr "Not found")])])).

(** A store that holds the listed collections with their point counts. *)
Definition store (collections : list (string * Z)) (req : request)
    : Exc response :=
  match req with
  | CollectionsIndex =>
      Normal (mkResponse 200 (Parsed (inventory_body (map fst collections))))
  | CollectionDetail (JStr n) =>
      match find (fun c => (fst c =? n)%string) collections with
      | Some c => Normal (mkResponse 200 (Parsed (detail_body (snd c))))
      | None => Normal not_found
      end
  | CollectionDetail _ => Normal not_found
  end.

Definition local_url : string := "http://localhost:6335".
Definition vps_url : string := "http://74.50.49.35:6333".

(** The world of the scenario: the local store holds B (5 points) and
    A (10 points), the remote store holds A (10 points) and C (3 points);
    everything else is as in [base]. *)
Definition scenario (base : Env) : Env :=
  mkEnv local_url vps_url (TARGET_API_KEY base)
    (SYNC_SCRIPT base) (SYNC_SCRIPT_REVERSE base) (LOG_DIR base)
    (fun url req _ =>
       if (url =? local_url)%string then store [("B", 5); ("A", 10)] req
       else if (url =? vps_url)%string then store [("A", 10); ("C", 3)] req
       else Raise (TransportError "All connection attempts failed"))
    (run_child base) (locale_decode base) (now_isoformat base)
    (glob_glob base) (read_text base) (getsize base).

(** The report of the comparison of all collections in that world. *)
Definition entry_A : json :=
  JDict [("name", JStr "A"); ("local_points", JInt 10);
         ("vps_points", JInt 10); ("difference", JInt 0);
         ("in_sync", JBool true); ("local_only", JBool false);
         ("vps_only", JBool false)].

Definition entry_B : json :=
  JDict [("name", JStr "B"); ("local_points", JInt 5);
         ("vps_points", JInt 0); ("difference", JInt 5);
         ("in_sync", JBool false); ("local_only", JBool true);
         ("vps_only", JBool false)].

Definition entry_C : json :=
  JDict [("name", JStr "C"); ("local_points", JInt 0);
         ("vps_points", JInt 3); ("difference", JInt (-3));
         ("in_sync", JBool false); ("local_only", JBool false);
         ("vps_only", JBool true)].

Definition scenario_report (timestamp : string) : json :=
  JDict [("timestamp", JStr timestamp);
         ("summary",
          JDict [("total_collections", JInt 3);
                 ("local_collections", JInt 2);
                 ("vps_collections", JInt 2);
                 ("out_of_sync", JInt 2);
                 ("total_local_points", JInt 15);
                 ("total_vps_points", JInt 13);
                 ("total_difference", JInt 2)]);
         ("collections", JList [entry_A; entry_B; entry_C])].

(** Thirteen log files, as [glob.glob] may list them. *)
Definition log_files : list string :=
  map (fun d => ("/home/vanya/logs/qdrant-sync-2025-11-" ++ d ++ ".log")%string)
    ["20"; "23"; "22"; "11"; "12"; "13"; "14"; "15"; "16"; "17"; "18"; "19";
     "21"].

(** A world with no store listening, sync scripts that exit with the code
    [0], UTF-8 for the encoding of the locale, a clock that advances by a
    second at every reading and thirteen readable log files. *)
Definition plain : Env :=
  mkEnv local_url vps_url "secret"
    "/home/vanya/scripts/sync-qdrant-to-vps.sh"
    "/home/vanya/scripts/sync-qdrant-from-vps.sh"
    "/home/vanya/logs"
    (fun _ _ _ => Raise (TransportError "All connection attempts failed"))
    (fun _ _ => Normal (mkExit 0 "done" ""))
    utf8_decode
    (fun n => ("2025-11-23T10:00:0" ++ str_int (Z.of_nat n))%string)
    (fun _ => log_files)
    (fun _ => Normal "sync complete")
    (fun _ => Normal 13).

(** The world [plain] at a later time of another day.  *)
Definition plain_later : Env :=
  mkEnv local_url vps_url "secret"
    (SYNC_SCRIPT plain) (SYNC_SCRIPT_REVERSE plain) (LOG_DIR plain)
    (client_get plain) (run_child plain) (locale_decode plain)
    (fun n => ("2025-11-24T08:30:0" ++ str_int (Z.of_nat n))%string)
    (glob_glob plain) (read_text plain) (getsize plain).

(** A store that answers the collection listing with a page that is not
    JSON, under the status 200. *)
Definition html_page : response :=
  mkResponse 200
    (Unparsable (JSONDecodeError "Expecting value: line 1 column 1 (char 0)")).

Definition behind_proxy : Env :=
  mkEnv local_url vps_url "secret"
    (SYNC_SCRIPT plain) (SYNC_SCRIPT_REVERSE plain) (LOG_DIR plain)
    (fun _ _ _ => Normal html_page)
    (run_child plain) (locale_decode plain) (now_isoformat plain)
    (glob_glob plain) (read_text plain) (getsize plain).

(** A store that answers every request with the status 503. *)
Definition unavailable : Env :=
  mkEnv local_url vps_url "secret"
    (SYNC_SCRIPT plain) (SYNC_SCRIPT_REVERSE plain) (LOG_DIR plain)
    (fun _ _ _ =>
       Normal (mkResponse 503 (Unparsable (JSONDecodeError "Expecting value"))))
    (run_child plain) (locale_decode plain) (now_isoformat plain)
    (glob_glob plain) (read_text plain) (getsize plain).

(** Two stores that hold the collection A and answer [1e999] for the
    number of its points: the parser reads it as [inf]. *)
Definition infinity : json := JFloat (S754_infinity false).

Definition infinite_body : json :=
  JDict [("result",
          JDict [("status", JStr "green");
                 ("points_count", infinity);
                 ("vectors_count", JInt 0);
                 ("indexed_vectors_count", JInt 0)]);
         ("status", JStr "ok")].

Definition overflowing : Env :=
  mkEnv local_url vps_url "secret"
    (SYNC_SCRIPT plain) (SYNC_SCRIPT_REVERSE plain) (LOG_DIR plain)
    (fun _ req _ =>
       match req with
       | CollectionsIndex =>
           Normal (mkResponse 200 (Parsed (inventory_body ["A"])))
       | CollectionDetail _ => Normal (mkResponse 200 (Parsed infinite_body))
       end)
    (run_child plain) (locale_decode plain) (now_isoformat plain)
    (glob_glob plain) (read_text plain) (getsize plain).

Definition entry_infinite : json :=
  JDict [("name", JStr "A"); ("local_points", infinity);
         ("vps_points", infinity); ("difference", JFloat S754_nan);
         ("in_sync", JBool true); ("local_only", JBool false);
         ("vps_only", JBool false)].



End Fixture.
(* ====================================================================== *)
(** * Properties                                                            *)
(* ====================================================================== *)

(** ** The comparison of all collections on the scenario *)

(** C1.  With the local store holding A (10 points) and B (5 points) and
    the remote store holding A (10 points) and C (3 points), the
    comparison of all collections has exactly three entries, in the order
    A, B, C: A is in sync with difference 0; B has [local_only] true,
    [vps_only] false and difference 5; C has [vps_only] true, [local_only]
    false and difference -3.  The summary counts 3 collections, 2 of them
    out of sync, and a total difference of 2.  The call reads the clock
    once and launches nothing. *)
Theorem compare_all_scenario (base : Env) (st : State) :
  call_tool (Fixture.scenario base) "qdrant_compare_collections" [] st =
  (Normal
     (JDict
        [("timestamp", JStr (now_isoformat base (clock_reads st)));
         ("summary",
          JDict [("total_collections", JInt 3);
                 ("local_collections", JInt 2);
                 ("vps_collections", JInt 2);
                 ("out_of_sync", JInt 2);
                 ("total_local_points", JInt 15);
                 ("total_vps_points", JInt 13);
                 ("total_difference", JInt 2)]);
         ("collections",
          JList
            [JDict [("name", JStr "A");
                    ("local_points", JInt 10);
                    ("vps_points", JInt 10);
                    ("difference", JInt 0);
                    ("in_sync", JBool true);
                    ("local_only", JBool false);
                    ("vps_only", JBool false)];
             JDict [("name", JStr "B");
                    ("local_points", JInt 5);
                    ("vps_points", JInt 0);
                    ("difference", JInt 5);
                    ("in_sync", JBool false);
                    ("local_only", JBool true);
                    ("vps_only", JBool false)];
             JDict [("name", JStr "C");
                    ("local_points", JInt 0);
                    ("vps_points", JInt 3);
                    ("difference", JInt (-3));
                    ("in_sync", JBool false);
                    ("local_only", JBool false);
                    ("vps_only", JBool true)]])]),
   mkState (spawned st) (S (clock_reads st))).
Proof. reflexivity. Qed.

(** ** The confirmation gate *)

(** With [confirm] true the forward full sync does reach the sync driver:
    the gate below is not vacuous. *)
Lemma full_sync_confirmed_launches (env : Env) (args : dict) (st : State) :
  lookup "confirm" args = Some (JBool true) ->
  spawned (snd (call_tool env "qdrant_sync_all" args st)) =
  spawned st ++ [[JStr (SYNC_SCRIPT env)]].
Proof.
  intros Hc. unfold call_tool, dict_get. simpl. rewrite Hc. simpl.
  unfold bindM, run_sync_script, sync_command.
  destruct (subprocess_run env [JStr (SYNC_SCRIPT env)] 1800) as [p | []];
    reflexivity.
Qed.

(** C6.  A full sync, forward or reverse, called with [confirm] absent or
    false returns a payload made of an error description and a hint, and
    leaves the state of the world as it was: no command is handed to
    [subprocess.run]. *)
Theorem full_sync_requires_confirmation
    (env : Env) (name : string) (args : dict) (st : State) :
  name = "qdrant_sync_all" \/ name = "qdrant_sync_from_vps_all" ->
  lookup "confirm" args = None \/ lookup "confirm" args = Some (JBool false) ->
  exists error hint : string,
    call_tool env name args st =
    (Normal (JDict [("error", JStr error); ("hint", JStr hint)]), st).
Proof.
  intros Hname Hconfirm.
  assert (Hfalsy : truthy (dict_get args "confirm" (JBool false)) = false).
  { unfold dict_get. destruct Hconfirm as [-> | ->]; reflexivity. }
  destruct Hname as [-> | ->]; unfold call_tool; simpl; rewrite Hfalsy; simpl;
    eexists; eexists; reflexivity.
Qed.

Lemma full_sync_requires_confirmation_witness :
  ("qdrant_sync_all" = "qdrant_sync_all" \/
   "qdrant_sync_all" = "qdrant_sync_from_vps_all") /\
  (lookup "confirm" [] = None \/ lookup "confirm" [] = Some (JBool false)) /\
  exists error hint : string,
    call_tool Fixture.plain "qdrant_sync_all" [] initial =
    (Normal (JDict [("error", JStr error); ("hint", JStr hint)]), initial).
Proof.
  split; [left; reflexivity |].
  split; [left; reflexivity |].
  apply (full_sync_requires_confirmation Fixture.plain "qdrant_sync_all" [] initial);
    left; reflexivity.
Defined.

(** ** The sync driver *)



(** ** The log reader *)

Lemma slice_to_length {A} (l : list A) (n : Z) :
  0 <= n -> (List.length (slice_to l n) <= Z.to_nat n)%nat.
Proof.
  intros Hn. unfold slice_to.
  destruct (Z.leb_spec 0 n) as [_ | Hneg]; [| lia].
  apply firstn_le_length.
Qed.

(** For a count that is not negative the log reader returns at most that
    many entries. *)
Lemma get_recent_logs_length (env : Env) (count : Z) :
  0 <= count -> Z.of_nat (List.length (get_recent_logs env count)) <= count.
Proof.
  intros Hc. unfold get_recent_logs. rewrite length_map.
  pose proof (slice_to_length
                (sorted_reverse
                   (glob_glob env (path_join (LOG_DIR env) "qdrant-sync-*.log")))
                count Hc).
  lia.
Qed.

(** The log tool hands [effective_count] to the log reader and changes
    nothing in the world. *)
Lemma call_tool_logs (env : Env) (args : dict) (st : State) :
  call_tool env "qdrant_sync_logs" args st =
  match effective_count args with
  | Normal count => (Normal (JList (map JDict (get_recent_logs env count))), st)
  | Raise e => (Raise e, st)
  end.
Proof.
  unfold call_tool. simpl. unfold bindM, lift.
  destruct (effective_count args); reflexivity.
Qed.

(** The count 0 is handed to the log reader as it is: no count between 1
    and 10 is used, and no log is returned although thirteen exist. *)
Lemma count_zero_is_not_clamped :
  ~ (exists c : Z,
       effective_count [("count", JInt 0)] = Normal c /\ 1 <= c <= 10) /\
  call_tool Fixture.plain "qdrant_sync_logs" [("count", JInt 0)] initial =
  (Normal (JList []), initial).
Proof.
  split.
  - intros [c [Hc Hrange]]. vm_compute in Hc. injection Hc as <-. lia.
  - reflexivity.
Qed.

(** C3, amended.  For an integer count [n] that is not negative the count
    handed to the log reader is [min(n, 10)], or 1 when [latest_only]
    holds: it is never above 10, and it is at least 1 as soon as [n] is;
    the log reader then returns at most that many entries. *)
Theorem effective_count_capped
    (env : Env) (args : dict) (n : Z) (st : State) :
  0 <= n ->
  lookup "count" args = Some (JInt n) ->
  exists c : Z,
    effective_count args = Normal c /\
    c = (if truthy (dict_get args "latest_only" (JBool false))
         then 1 else Z.min n 10) /\
    0 <= c <= 10 /\
    (1 <= n -> 1 <= c) /\
    call_tool env "qdrant_sync_logs" args st =
      (Normal (JList (map JDict (get_recent_logs env c))), st) /\
    Z.of_nat (List.length (get_recent_logs env c)) <= c.
Proof.
  intros Hn Hcount.
  set (c := if truthy (dict_get args "latest_only" (JBool false))
            then 1 else Z.min n 10).
  assert (Heff : effective_count args = Normal c).
  { unfold effective_count, dict_get at 1. rewrite Hcount.
    unfold py_min_10, number_lt. cbn [as_number as_int option_map bind
                                      number_compare].
    subst c. destruct (truthy _); [reflexivity |].
    destruct (Z.compare_spec 10 n); cbn [slice_bound as_int]; f_equal; lia. }
  assert (Hrange : 0 <= c <= 10).
  { subst c. destruct (truthy _); lia. }
  exists c. split; [exact Heff |]. split; [reflexivity |].
  split; [exact Hrange |]. split.
  - intros H1. subst c. destruct (truthy _); lia.
  - split.
    + rewrite call_tool_logs, Heff. reflexivity.
    + apply get_recent_logs_length. lia.
Qed.

Lemma effective_count_capped_witness :
  0 <= 25 /\
  lookup "count" [("count", JInt 25)] = Some (JInt 25) /\
  exists c : Z,
    effective_count [("count", JInt 25)] = Normal c /\
    c = (if truthy (dict_get [("count", JInt 25)] "latest_only" (JBool false))
         then 1 else Z.min 25 10) /\
    0 <= c <= 10 /\
    (1 <= 25 -> 1 <= c) /\
    call_tool Fixture.plain "qdrant_sync_logs" [("count", JInt 25)] initial =
      (Normal (JList (map JDict (get_recent_logs Fixture.plain c))), initial) /\
    Z.of_nat (List.length (get_recent_logs Fixture.plain c)) <= c.
Proof.
  split; [lia |]. split; [reflexivity |].
  apply (effective_count_capped Fixture.plain [("count", JInt 25)] 25 initial);
    [lia | reflexivity].
Defined.

(** C9.  When [latest_only] is true and the count is an integer or is
    absent, the count handed to the log reader is 1 whatever the count
    argument says, and at most one log entry is returned. *)
Theorem latest_only_forces_one (env : Env) (args : dict) (st : State) :
  lookup "latest_only" args = Some (JBool true) ->
  lookup "count" args = None \/ (exists n, lookup "count" args = Some (JInt n)) ->
  effective_count args = Normal 1 /\
  call_tool env "qdrant_sync_logs" args st =
    (Normal (JList (map JDict (get_recent_logs env 1))), st) /\
  (List.length (get_recent_logs env 1) <= 1)%nat.
Proof.
  intros Hlatest Hcount.
  assert (Heff : effective_count args = Normal 1).
  { unfold effective_count, dict_get. rewrite Hlatest.
    destruct Hcount as [-> | [n ->]]; reflexivity. }
  split; [exact Heff |]. split.
  - rewrite call_tool_logs, Heff. reflexivity.
  - pose proof (get_recent_logs_length env 1). lia.
Qed.

Lemma latest_only_forces_one_witness :
  lookup "latest_only" [("count", JInt 7); ("latest_only", JBool true)] =
    Some (JBool true) /\
  (lookup "count" [("count", JInt 7); ("latest_only", JBool true)] = None \/
   exists n, lookup "count" [("count", JInt 7); ("latest_only", JBool true)] =
             Some (JInt n)) /\
  effective_count [("count", JInt 7); ("latest_only", JBool true)] = Normal 1 /\
  call_tool Fixture.plain "qdrant_sync_logs"
    [("count", JInt 7); ("latest_only", JBool true)] initial =
    (Normal (JList (map JDict (get_recent_logs Fixture.plain 1))), initial) /\
  (List.length (get_recent_logs Fixture.plain 1) <= 1)%nat.
Proof.
  split; [reflexivity |].
  split; [right; exists 7; reflexivity |].
  apply (latest_only_forces_one Fixture.plain
           [("count", JInt 7); ("latest_only", JBool true)] initial);
    [reflexivity | right; exists 7; reflexivity].
Defined.

(** A negative count reaches the slice [[:count]] unchanged and counts
    from the end of the list: with thirteen log files and the count -2,
    eleven entries come back. *)
Example negative_count_counts_from_the_end :
  effective_count [("count", JInt (-2))] = Normal (-2) /\
  List.length (get_recent_logs Fixture.plain (-2)) = 11%nat.
Proof. split; reflexivity. Qed.

(** Log recency: of the logs of the 20th, 23rd and 22nd, a count of two
    selects the 23rd and then the 22nd. *)
Example recent_two_of_three :
  slice_to
    (sorted_reverse ["qdrant-sync-2025-11-20.log"; "qdrant-sync-2025-11-23.log";
                     "qdrant-sync-2025-11-22.log"]) 2 =
  ["qdrant-sync-2025-11-23.log"; "qdrant-sync-2025-11-22.log"].
Proof. reflexivity. Qed.

(** ** The statistics of one collection *)

(** [get_collection_info] returns one of two shapes: the five statistics,
    or the name with an error. *)
Lemma get_collection_info_shape
    (env : Env) (url : string) (name : json) (api_key : option string) :
  (exists status points vectors indexed,
     get_collection_info env url name api_key =
     [("name", name); ("status", status); ("points_count", points);
      ("vectors_count", vectors); ("indexed_vectors_count", indexed)]) \/
  (exists description,
     get_collection_info env url name api_key =
     [("name", name); ("error", JStr description)]).
Proof.
  unfold get_collection_info.
  destruct (client_get env url (CollectionDetail name) (headers_for api_key))
    as [response | e]; simpl; [| right; eexists; reflexivity].
  destruct (status_code response =? 200); [| right; eexists; reflexivity].
  destruct (response_json response) as [data | e]; simpl;
    [| right; eexists; reflexivity].
  destruct (py_get data "result" (JDict [])) as [result | e]; simpl;
    [| right; eexists; reflexivity].
  destruct result; simpl; try (right; eexists; reflexivity).
  left. do 4 eexists. reflexivity.
Qed.

(** A failed statistics request gives the name with an error, hence no
    point count. *)
Lemma get_collection_info_failed
    (env : Env) (url : string) (name : json) (api_key : option string) :
  stat_fails env url name api_key ->
  exists description,
    get_collection_info env url name api_key =
    [("name", name); ("error", JStr description)].
Proof.
  unfold stat_fails, get_collection_info.
  destruct (client_get env url (CollectionDetail name) (headers_for api_key))
    as [response | e]; simpl; intros Hfail.
  - destruct (Z.eqb_spec (status_code response) 200) as [H200 | _];
      [contradiction |].
    eexists. reflexivity.
  - eexists. reflexivity.
Qed.

(** C10.  When the statistics request for the named collection fails on
    both stores (a status other than 200, or an exception), both point
    counts default to 0 and the comparison of that one collection reports
    [in_sync] true with difference 0; both sides carry an error and no
    point count. *)
Theorem compare_single_absent_on_both
    (env : Env) (args : dict) (name : json) (st : State) :
  dict_get args "collection_name" JNull = name ->
  truthy name = true ->
  stat_fails env (SOURCE_REST_URL env) name None ->
  stat_fails env (TARGET_REST_URL env) name (Some (TARGET_API_KEY env)) ->
  exists local_error vps_error : string,
    call_tool env "qdrant_compare_collections" args st =
    (Normal
       (JDict [("collection", name);
               ("local", JDict [("name", name); ("error", JStr local_error)]);
               ("vps", JDict [("name", name); ("error", JStr vps_error)]);
               ("in_sync", JBool true);
               ("difference", JInt 0)]),
     st).
Proof.
  intros Hname Htruthy Hlocal Hvps.
  destruct (get_collection_info_failed _ _ _ _ Hlocal) as [le Hle].
  destruct (get_collection_info_failed _ _ _ _ Hvps) as [ve Hve].
  exists le, ve.
  unfold call_tool. simpl. rewrite Hname, Htruthy.
  unfold compare_single. rewrite Hle, Hve. reflexivity.
Qed.

Lemma compare_single_absent_on_both_witness :
  dict_get [("collection_name", JStr "ghost")] "collection_name" JNull =
    JStr "ghost" /\
  truthy (JStr "ghost") = true /\
  stat_fails (Fixture.scenario Fixture.plain)
    (SOURCE_REST_URL (Fixture.scenario Fixture.plain)) (JStr "ghost") None /\
  stat_fails (Fixture.scenario Fixture.plain)
    (TARGET_REST_URL (Fixture.scenario Fixture.plain)) (JStr "ghost")
    (Some (TARGET_API_KEY (Fixture.scenario Fixture.plain))) /\
  exists local_error vps_error : string,
    call_tool (Fixture.scenario Fixture.plain) "qdrant_compare_collections"
      [("collection_name", JStr "ghost")] initial =
    (Normal
       (JDict [("collection", JStr "ghost");
               ("local",
                JDict [("name", JStr "ghost"); ("error", JStr local_error)]);
               ("vps",
                JDict [("name", JStr "ghost"); ("error", JStr vps_error)]);
               ("in_sync", JBool true);
               ("difference", JInt 0)]),
     initial).
Proof.
  assert (Hl : stat_fails (Fixture.scenario Fixture.plain)
                 (SOURCE_REST_URL (Fixture.scenario Fixture.plain))
                 (JStr "ghost") None)
    by (vm_compute; discriminate).
  assert (Hv : stat_fails (Fixture.scenario Fixture.plain)
                 (TARGET_REST_URL (Fixture.scenario Fixture.plain))
                 (JStr "ghost")
                 (Some (TARGET_API_KEY (Fixture.scenario Fixture.plain))))
    by (vm_compute; discriminate).
  split; [reflexivity |]. split; [reflexivity |].
  split; [exact Hl |]. split; [exact Hv |].
  apply (compare_single_absent_on_both (Fixture.scenario Fixture.plain)
           [("collection_name", JStr "ghost")] (JStr "ghost") initial);
    [reflexivity | reflexivity | exact Hl | exact Hv].
Defined.

(** ** The probe *)

Lemma mapM_length {A B} (f : A -> Exc B) (l : list A) (r : list B) :
  mapM f l = Normal r -> List.length r = List.length l.
Proof.
  revert r. induction l as [| x l IH]; intros r H; simpl in H.
  - injection H as <-. reflexivity.
  - destruct (f x) as [y | e]; simpl in H; [| discriminate].
    destruct (mapM f l) as [r' | e]; simpl in H; [| discriminate].
    injection H as <-. simpl. f_equal. apply IH. reflexivity.
Qed.

Lemma mapM_get_name (items : list dict) :
  mapM (fun c => py_get c "name" JNull) (map JDict items) =
  Normal (map (fun c => dict_get c "name" JNull) items).
Proof.
  induction items as [| c items IH]; simpl; [reflexivity |].
  rewrite IH. reflexivity.
Qed.

(** The number [len(collections)] gives is the number of items the
    iteration over [collections] visits. *)
Lemma py_len_iter (x : json) (n : Z) (items : list json) :
  py_len x = Normal n -> py_iter x = Normal items ->
  n = Z.of_nat (List.length items).
Proof.
  destruct x; simpl; intros Hn Hi; try discriminate;
    injection Hn as <-; injection Hi as <-; rewrite ?length_map; reflexivity.
Qed.

(** Every report of the probe has one of the three shapes; in a connected
    report the count is the length of the list of names. *)
Lemma probe_shapes (env : Env) (url : string) (api_key : option string) :
  (exists names,
     check_qdrant_connectivity env url api_key = connected_report url names) \/
  (exists code,
     check_qdrant_connectivity env url api_key = error_report url code) \/
  (exists description,
     check_qdrant_connectivity env url api_key =
     unreachable_report url description).
Proof.
  unfold check_qdrant_connectivity.
  destruct (client_get env url CollectionsIndex (headers_for api_key))
    as [response | e]; simpl; [| right; right; eexists; reflexivity].
  destruct (status_code response =? 200);
    [| right; left; eexists; reflexivity].
  destruct (response_json response) as [data | e]; simpl;
    [| right; right; eexists; reflexivity].
  destruct (py_get data "result" (JDict [])) as [result | e]; simpl;
    [| right; right; eexists; reflexivity].
  destruct (py_get result "collections" (JList [])) as [collections | e];
    simpl; [| right; right; eexists; reflexivity].
  destruct (py_len collections) as [n | e] eqn:Hlen; simpl;
    [| right; right; eexists; reflexivity].
  destruct (py_iter collections) as [items | e] eqn:Hiter; simpl;
    [| right; right; eexists; reflexivity].
  destruct (mapM (fun c => py_get c "name" JNull) items) as [names | e]
    eqn:Hnames; simpl; [| right; right; eexists; reflexivity].
  left. exists names. unfold connected_report.
  rewrite (py_len_iter _ _ _ Hlen Hiter), (mapM_length _ _ _ Hnames).
  reflexivity.
Qed.

(** A store that answers the listing with the status 200 and a body that
    is not JSON is reported as unreachable, not as connected. *)
Lemma probe_200_not_connected :
  client_get Fixture.behind_proxy Fixture.local_url CollectionsIndex
    (headers_for None) = Normal Fixture.html_page /\
  status_code Fixture.html_page = 200 /\
  check_qdrant_connectivity Fixture.behind_proxy Fixture.local_url None =
    unreachable_report Fixture.local_url
      "Expecting value: line 1 column 1 (char 0)" /\
  lookup "status"
    (check_qdrant_connectivity Fixture.behind_proxy Fixture.local_url None)
    <> Some (JStr "connected").
Proof. repeat split. discriminate. Qed.

(** C7, amended.  The probe always returns a report.  A 200 answer whose
    body is an object holding, under [result], the list [collections] of
    objects gives [connected] with the names of those objects and their
    number; a 200 answer whose body is not JSON gives [unreachable] with
    the description of the parse failure; an answer with another status
    gives [error] with the code; a request that raises gives
    [unreachable] with the description of the failure.  Whatever the
    store answers, the report is connected with a count equal to the
    length of its list of names, or an error, or unreachable. *)
Theorem probe_total (env : Env) (url : string) (api_key : option string) :
  let report := check_qdrant_connectivity env url api_key in
  let answer := client_get env url CollectionsIndex (headers_for api_key) in
  (forall response d result items,
     answer = Normal response ->
     status_code response = 200 ->
     content response = Parsed (JDict d) ->
     lookup "result" d = Some (JDict result) ->
     lookup "collections" result = Some (JList (map JDict items)) ->
     report =
     connected_report url (map (fun c => dict_get c "name" JNull) items)) /\
  (forall response e,
     answer = Normal response ->
     status_code response = 200 ->
     content response = Unparsable e ->
     report = unreachable_report url (str_exn e)) /\
  (forall response,
     answer = Normal response ->
     status_code response <> 200 ->
     report = error_report url (status_code response)) /\
  (forall e,
     answer = Raise e -> report = unreachable_report url (str_exn e)) /\
  ((exists names, report = connected_report url names) \/
   (exists code, report = error_report url code) \/
   (exists description, report = unreachable_report url description)).
Proof.
  cbv zeta. repeat split.
  - intros response d result items Ha H200 Hbody Hresult Hcols.
    unfold check_qdrant_connectivity. rewrite Ha. simpl. rewrite H200. simpl.
    unfold response_json. rewrite Hbody. simpl.
    unfold dict_get. rewrite Hresult. simpl.
    unfold dict_get. rewrite Hcols. simpl.
    rewrite mapM_get_name. simpl.
    unfold connected_report. rewrite !length_map. reflexivity.
  - intros response e Ha H200 Hbody.
    unfold check_qdrant_connectivity. rewrite Ha. simpl. rewrite H200. simpl.
    unfold response_json. rewrite Hbody. reflexivity.
  - intros response Ha Hcode.
    unfold check_qdrant_connectivity. rewrite Ha. simpl.
    destruct (Z.eqb_spec (status_code response) 200); [contradiction |].
    reflexivity.
  - intros e Ha. unfold check_qdrant_connectivity. rewrite Ha. reflexivity.
  - apply probe_shapes.
Qed.

Lemma probe_total_witness :
  check_qdrant_connectivity (Fixture.scenario Fixture.plain)
    Fixture.local_url None =
  connected_report Fixture.local_url [JStr "B"; JStr "A"] /\
  check_qdrant_connectivity Fixture.behind_proxy Fixture.local_url None =
  unreachable_report Fixture.local_url
    "Expecting value: line 1 column 1 (char 0)" /\
  check_qdrant_connectivity Fixture.unavailable Fixture.local_url None =
  error_report Fixture.local_url 503 /\
  check_qdrant_connectivity Fixture.plain Fixture.local_url None =
  unreachable_report Fixture.local_url "All connection attempts failed".
Proof.
  split; [| split; [| split]].
  - apply (proj1 (probe_total (Fixture.scenario Fixture.plain)
                    Fixture.local_url None)
             (mkResponse 200
                (Parsed (Fixture.inventory_body ["B"; "A"])))
             [("result",
               JDict [("collections",
                       JList (map JDict [[("name", JStr "B")];
                                         [("name", JStr "A")]]))]);
              ("status", JStr "ok")]
             [("collections",
               JList (map JDict [[("name", JStr "B")]; [("name", JStr "A")]]))]
             [[("name", JStr "B")]; [("name", JStr "A")]]);
      reflexivity.
  - apply (proj1 (proj2 (probe_total Fixture.behind_proxy
                           Fixture.local_url None))
             Fixture.html_page
             (JSONDecodeError "Expecting value: line 1 column 1 (char 0)"));
      reflexivity.
  - apply (proj1 (proj2 (proj2 (probe_total Fixture.unavailable
                                  Fixture.local_url None)))
             (mkResponse 503 (Unparsable (JSONDecodeError "Expecting value"))));
      [reflexivity | discriminate].
  - apply (proj1 (proj2 (proj2 (proj2 (probe_total Fixture.plain
                                         Fixture.local_url None))))
             (TransportError "All connection attempts failed"));
      reflexivity.
Defined.

(** ** Reports as functions of the store responses *)

Lemma fst_bindM_ret {A B} (c : M A) (f : A -> B) (st : State) :
  fst (bindM c (fun a => ret (f a)) st) =
  match fst (c st) with
  | Normal a => Normal (f a)
  | Raise e => Raise e
  end.
Proof. unfold bindM, ret. destruct (c st) as [[a | e] st']; reflexivity. Qed.

Section SameStores.
Variables env1 env2 : Env.
Hypothesis Hsame : same_stores env1 env2.

Lemma check_qdrant_connectivity_same (url : string) (api_key : option string) :
  check_qdrant_connectivity env1 url api_key =
  check_qdrant_connectivity env2 url api_key.
Proof.
  destruct Hsame as (_ & _ & _ & Hget).
  unfold check_qdrant_connectivity. rewrite Hget. reflexivity.
Qed.

Lemma get_collection_info_same
    (url : string) (name : json) (api_key : option string) :
  get_collection_info env1 url name api_key =
  get_collection_info env2 url name api_key.
Proof.
  destruct Hsame as (_ & _ & _ & Hget).
  unfold get_collection_info. rewrite Hget. reflexivity.
Qed.

Lemma get_all_collections_with_counts_same
    (url : string) (api_key : option string) :
  get_all_collections_with_counts env1 url api_key =
  get_all_collections_with_counts env2 url api_key.
Proof.
  unfold get_all_collections_with_counts.
  rewrite check_qdrant_connectivity_same.
  destruct (negb _); [reflexivity |].
  destruct (py_iter _) as [names | e]; simpl; [| reflexivity].
  f_equal. apply map_ext. intros name. apply get_collection_info_same.
Qed.

Lemma compare_all_same (st1 st2 : State) :
  outcome_without_timestamp
    (match fst (compare_all env1 st1) with
     | Normal d => Normal (JDict d)
     | Raise e => Raise e
     end) =
  outcome_without_timestamp
    (match fst (compare_all env2 st2) with
     | Normal d => Normal (JDict d)
     | Raise e => Raise e
     end).
Proof.
  destruct Hsame as (Hsrc & Htgt & Hkey & _).
  unfold compare_all, bindM, lift.
  rewrite !get_all_collections_with_counts_same, Hsrc, Htgt, Hkey.
  destruct (get_all_collections_with_counts env2 (SOURCE_REST_URL env2) None)
    as [lc | e]; [| reflexivity].
  destruct (get_all_collections_with_counts env2 (TARGET_REST_URL env2)
              (Some (TARGET_API_KEY env2))) as [vc | e]; [| reflexivity].
  destruct (by_name lc) as [ld | e]; [| reflexivity].
  destruct (by_name vc) as [vd | e]; [| reflexivity].
  destruct (py_sorted (fun k => k) (set_union (keys ld) (keys vd)))
    as [names | e]; [| reflexivity].
  destruct (compare_loop ld vd names) as [t | e]; [| reflexivity].
  unfold now, ret.
  destruct (py_sub (total_local_points t) (total_vps_points t));
    reflexivity.
Qed.

Lemma compare_single_same (name : json) (st1 st2 : State) :
  fst (compare_single env1 name st1) = fst (compare_single env2 name st2).
Proof.
  destruct Hsame as (Hsrc & Htgt & Hkey & _).
  unfold compare_single, bindM, lift.
  rewrite !get_collection_info_same, Hsrc, Htgt, Hkey.
  destruct (py_sub _ _); reflexivity.
Qed.

End SameStores.

(** The status tool and the comparison tool launch nothing. *)
Lemma reads_launch_nothing
    (env : Env) (name : string) (args : dict) (st : State) :
  name = "qdrant_sync_status" \/ name = "qdrant_compare_collections" ->
  spawned (snd (call_tool env name args st)) = spawned st.
Proof.
  intros [-> | ->]; unfold call_tool; simpl.
  - reflexivity.
  - destruct (truthy _).
    + unfold bindM, compare_single, lift, bindM.
      destruct (py_sub _ _); reflexivity.
    + unfold bindM, compare_all, lift, bindM.
      repeat match goal with
             | |- context [match ?c with Normal _ => _ | Raise _ => _ end] =>
                 destruct c; try reflexivity
             end.
Qed.

(** Two status calls in the world [Fixture.plain], and two comparisons of
    all collections in the world of the scenario, give reports that are not
    identical: the clock has moved between the calls. *)
Lemma reports_twice_differ :
  fst (twice Fixture.plain "qdrant_sync_status" [] initial) <>
  snd (twice Fixture.plain "qdrant_sync_status" [] initial) /\
  fst (twice (Fixture.scenario Fixture.plain)
         "qdrant_compare_collections" [] initial) <>
  snd (twice (Fixture.scenario Fixture.plain)
         "qdrant_compare_collections" [] initial).
Proof. split; vm_compute; discriminate. Qed.

(** C2, amended.  Two calls of the status tool, or two calls of the
    comparison tool with the same arguments, made against stores that
    answer alike, return reports that agree in every field except
    [timestamp], which holds the reading of the clock at each call; the
    comparison of one named collection has no timestamp and its two
    reports are identical.  Neither call launches a sync script. *)
Theorem reports_agree_up_to_timestamp
    (env1 env2 : Env) (name : string) (args : dict) (st1 st2 : State) :
  same_stores env1 env2 ->
  name = "qdrant_sync_status" \/ name = "qdrant_compare_collections" ->
  outcome_without_timestamp (fst (call_tool env1 name args st1)) =
  outcome_without_timestamp (fst (call_tool env2 name args st2)) /\
  (name = "qdrant_compare_collections" ->
   truthy (dict_get args "collection_name" JNull) = true ->
   fst (call_tool env1 name args st1) = fst (call_tool env2 name args st2)) /\
  spawned (snd (call_tool env1 name args st1)) = spawned st1 /\
  spawned (snd (call_tool env2 name args st2)) = spawned st2.
Proof.
  intros Hsame Hname.
  split; [| split; [| split; apply reads_launch_nothing; exact Hname]].
  - destruct Hname as [-> | ->]; unfold call_tool; simpl.
    + rewrite !(check_qdrant_connectivity_same env1 env2 Hsame).
      destruct Hsame as (-> & -> & -> & _). reflexivity.
    + destruct (truthy _); rewrite !fst_bindM_ret.
      * rewrite (compare_single_same env1 env2 Hsame _ st1 st2). reflexivity.
      * apply (compare_all_same env1 env2 Hsame).
  - intros -> Htruthy. unfold call_tool. simpl. rewrite Htruthy.
    rewrite !fst_bindM_ret.
    rewrite (compare_single_same env1 env2 Hsame _ st1 st2). reflexivity.
Qed.

Lemma reports_agree_up_to_timestamp_witness :
  same_stores (Fixture.scenario Fixture.plain)
    (Fixture.scenario Fixture.plain_later) /\
  ("qdrant_compare_collections" = "qdrant_sync_status" \/
   "qdrant_compare_collections" = "qdrant_compare_collections") /\
  outcome_without_timestamp
    (fst (call_tool (Fixture.scenario Fixture.plain)
            "qdrant_compare_collections" [] initial)) =
  outcome_without_timestamp
    (fst (call_tool (Fixture.scenario Fixture.plain_later)
            "qdrant_compare_collections" [] (mkState [] 5))).
Proof.
  assert (Hsame : same_stores (Fixture.scenario Fixture.plain)
                    (Fixture.scenario Fixture.plain_later))
    by (repeat split; reflexivity).
  split; [exact Hsame |]. split; [right; reflexivity |].
  apply (reports_agree_up_to_timestamp
           (Fixture.scenario Fixture.plain)
           (Fixture.scenario Fixture.plain_later)
           "qdrant_compare_collections" [] initial (mkState [] 5) Hsame).
  right; reflexivity.
Defined.


(** ** The comparison loop *)

Lemma fold_left_raise {A B} (f : A -> B -> Exc A) (l : list B) (e : exn) :
  fold_left (fun acc x => (a <- acc ;; f a x)%exc) l (Raise e) = Raise e.
Proof. induction l as [| x l IH]; simpl; [reflexivity | exact IH]. Qed.

(** A property that every step keeps holds when the fold returns. *)
Lemma fold_left_exc_invariant {A B} (P : A -> Prop) (f : A -> B -> Exc A) :
  (forall a x a', P a -> f a x = Normal a' -> P a') ->
  forall l a r,
    P a ->
    fold_left (fun acc x => (a <- acc ;; f a x)%exc) l (Normal a) = Normal r ->
    P r.
Proof.
  intros Hstep l. induction l as [| x l IH]; intros a r Ha Hfold; simpl in Hfold.
  - injection Hfold as <-. exact Ha.
  - destruct (f a x) as [a' | e] eqn:Hf.
    + apply (IH a' r); [apply (Hstep a x a' Ha Hf) | exact Hfold].
    + rewrite fold_left_raise in Hfold. discriminate.
Qed.

Lemma count_out_of_sync_app (l : list json) (e : json) :
  count_out_of_sync (l ++ [e]) =
  count_out_of_sync l +
  match field "in_sync" e with Some (JBool false) => 1 | _ => 0 end.
Proof.
  unfold count_out_of_sync. rewrite filter_app, length_app. simpl.
  destruct (field "in_sync" e) as [[| [|] | | | | |] |]; simpl; lia.
Qed.

Lemma sum_field_app (k : string) (l : list json) (e : json) :
  sum_field k (l ++ [e]) =
  (a <- sum_field k l ;;
   match field k e with
   | Some v => py_iadd a v
   | None => Normal a
   end)%exc.
Proof. unfold sum_field. rewrite fold_left_app. reflexivity. Qed.

Lemma as_number_integer (a : json) (n : Z) :
  as_int a = Some n -> as_number a = Some (NInt n).
Proof.
  destruct a; cbn [as_int as_number option_map]; intros H;
    try discriminate; injection H as <-; reflexivity.
Qed.

(** Integers that [==] holds equal are the same integer. *)
Lemma py_eq_as_int (a b : json) (n m : Z) :
  as_int a = Some n -> as_int b = Some m -> py_eq a b = true -> n = m.
Proof.
  intros Ha Hb.
  assert (E : py_eq a b = number_eq (NInt n) (NInt m)).
  { pose proof (as_number_integer a n Ha) as Na.
    pose proof (as_number_integer b m Hb) as Nb.
    destruct a; try discriminate; destruct b; try discriminate;
      unfold py_eq; cbn [is_nan negb andb py_same orb]; rewrite Na, Nb;
      reflexivity. }
  rewrite E. unfold number_eq, number_compare.
  destruct (Z.compare_spec n m); [intros _; assumption | discriminate ..].
Qed.

(** Arithmetic on integers stays in the integers. *)
Lemma py_iadd_integers (acc x : json) (n m : Z) :
  as_int acc = Some n -> as_int x = Some m ->
  py_iadd acc x = Normal (JInt (n + m)).
Proof.
  intros Ha Hx. unfold py_iadd.
  rewrite (as_number_integer acc n Ha), (as_number_integer x m Hx).
  reflexivity.
Qed.

Lemma py_sub_integers (a b : json) (n m : Z) :
  as_int a = Some n -> as_int b = Some m ->
  py_sub a b = Normal (JInt (n - m)).
Proof.
  intros Ha Hb. unfold py_sub.
  rewrite (as_number_integer a n Ha), (as_number_integer b m Hb).
  reflexivity.
Qed.

(** What [d.get(name, missing_info)] can be. *)
Lemma keyed_get_cases (d : keyed dict) (k : json) :
  plain_values d ->
  keyed_get d k missing_info = missing_info \/
  plain_info (keyed_get d k missing_info).
Proof.
  intros Hd. unfold keyed_get.
  destruct (keyed_find d k) as [v |] eqn:Hfind; [right | left; reflexivity].
  induction d as [| [k' v'] d IH]; simpl in Hfind; [discriminate |].
  destruct (py_same k' k).
  - injection Hfind as <-. apply (Hd k' v'). left. reflexivity.
  - apply IH; [| exact Hfind].
    intros k0 v0 Hin. apply (Hd k0 v0). right. exact Hin.
Qed.

(** One turn of the loop keeps the invariant. *)
Lemma compare_one_invariant
    (local_dict vps_dict : keyed dict) (acc t : totals) (name : json) :
  plain_values local_dict -> plain_values vps_dict ->
  loop_invariant acc ->
  compare_one local_dict vps_dict acc name = Normal t ->
  loop_invariant t.
Proof.
  intros Hl Hv [Hout Hlocal Hvps Hentries] Hone.
  unfold compare_one in Hone.
  set (li := keyed_get local_dict name missing_info) in *.
  set (vi := keyed_get vps_dict name missing_info) in *.
  set (lp := dict_get li "points_count" (JInt 0)) in *.
  set (vp := dict_get vi "points_count" (JInt 0)) in *.
  destruct (py_iadd (total_local_points acc) lp) as [total_local | e] eqn:Htl;
    cbn [bind] in Hone; [| discriminate].
  destruct (py_iadd (total_vps_points acc) vp) as [total_vps | e] eqn:Htv;
    cbn [bind] in Hone; [| discriminate].
  destruct (py_sub lp vp) as [difference | e] eqn:Hdiff;
    cbn [bind] in Hone; [| discriminate].
  injection Hone as <-.
  set (in_sync := py_eq lp vp
                  && negb (truthy (dict_get li "missing" JNull))
                  && negb (truthy (dict_get vi "missing" JNull))) in *.
  assert (Hflags :
    in_sync = true ->
    dict_get vi "missing" (JBool false) = JBool false /\
    dict_get li "missing" (JBool false) = JBool false /\
    py_eq lp vp = true).
  { intros H. apply andb_prop in H. destruct H as [H Hvi].
    apply andb_prop in H. destruct H as [Heq Hli].
    split; [| split].
    - destruct (keyed_get_cases vps_dict name Hv) as [E | E]; fold vi in E.
      + rewrite E in Hvi. discriminate.
      + unfold dict_get. rewrite E. reflexivity.
    - destruct (keyed_get_cases local_dict name Hl) as [E | E]; fold li in E.
      + rewrite E in Hli. discriminate.
      + unfold dict_get. rewrite E. reflexivity.
    - exact Heq. }
  constructor;
    cbn [comparison out_of_sync total_local_points total_vps_points];
    rewrite map_app; cbn [map].
  - rewrite count_out_of_sync_app, Hout.
    generalize (count_out_of_sync (map JDict (comparison acc))). intros c.
    change (field "in_sync" _) with (Some (JBool in_sync)).
    destruct in_sync; simpl; lia.
  - rewrite sum_field_app, Hlocal. exact Htl.
  - rewrite sum_field_app, Hvps. exact Htv.
  - intros e Hin. apply in_app_or in Hin. destruct Hin as [Hin | [<- | []]].
    + apply Hentries. exact Hin.
    + unfold entry_consistent.
      change (field "in_sync" _) with (Some (JBool in_sync)).
      change (field "local_only" _)
        with (Some (dict_get vi "missing" (JBool false))).
      change (field "vps_only" _)
        with (Some (dict_get li "missing" (JBool false))).
      change (field "difference" _) with (Some difference).
      change (integer_points _)
        with (match as_int lp, as_int vp with
              | Some _, Some _ => true
              | _, _ => false
              end).
      intros Hsync. injection Hsync as Hsync.
      destruct (Hflags Hsync) as (E1 & E2 & Heq).
      rewrite E1, E2. repeat split.
      destruct (as_int lp) as [n |] eqn:Hn; [| discriminate].
      destruct (as_int vp) as [m |] eqn:Hm; [| discriminate].
      intros _.
      rewrite (py_sub_integers lp vp n m Hn Hm) in Hdiff.
      injection Hdiff as <-.
      rewrite (py_eq_as_int lp vp n m Hn Hm Heq), Z.sub_diag. reflexivity.
Qed.

Lemma compare_loop_invariant
    (local_dict vps_dict : keyed dict) (names : list json) (t : totals) :
  plain_values local_dict -> plain_values vps_dict ->
  compare_loop local_dict vps_dict names = Normal t ->
  loop_invariant t.
Proof.
  intros Hl Hv Hloop. unfold compare_loop in Hloop.
  apply (fold_left_exc_invariant loop_invariant
           (compare_one local_dict vps_dict)) with (l := names)
           (a := mkTotals [] (JInt 0) (JInt 0) 0).
  - intros a x a' Ha Hone. apply (compare_one_invariant _ _ a a' x Hl Hv Ha Hone).
  - constructor; simpl; try reflexivity. intros e [].
  - exact Hloop.
Qed.

(** *** Where the dicts of the comparison come from *)

Lemma insert_sorted_In {A} (key : A -> json) (x : A) (l r : list A) :
  insert_sorted key x l = Normal r -> forall y, In y r -> y = x \/ In y l.
Proof.
  revert r. induction l as [| z l IH]; intros r H y Hy; simpl in H.
  - injection H as <-. destruct Hy as [<- | []]. left. reflexivity.
  - destruct (py_lt (key x) (key z)) as [[|] | e]; simpl in H;
      [| | discriminate].
    + injection H as <-. destruct Hy as [<- | Hy]; [left; reflexivity |].
      right. exact Hy.
    + destruct (insert_sorted key x l) as [r' | e]; simpl in H;
        [| discriminate].
      injection H as <-. destruct Hy as [<- | Hy].
      * right. left. reflexivity.
      * destruct (IH r' eq_refl y Hy) as [-> | Hin];
          [left; reflexivity | right; right; exact Hin].
Qed.

Lemma sorted_from_In {A} (key : A -> json) (l s r : list A) :
  fold_left (fun acc x => (s <- acc ;; insert_sorted key x s)%exc) l (Normal s)
  = Normal r ->
  forall y, In y r -> In y s \/ In y l.
Proof.
  revert s r. induction l as [| x l IH]; intros s r H y Hy; simpl in H.
  - injection H as <-. left. exact Hy.
  - destruct (insert_sorted key x s) as [s' | e] eqn:Hins.
    + destruct (IH s' r H y Hy) as [Hin | Hin].
      * destruct (insert_sorted_In key x s s' Hins y Hin) as [-> | Hs];
          [right; left; reflexivity | left; exact Hs].
      * right. right. exact Hin.
    + rewrite fold_left_raise in H. discriminate.
Qed.

(** [sorted] returns items of its argument. *)
Lemma py_sorted_In {A} (key : A -> json) (l r : list A) :
  py_sorted key l = Normal r -> forall y, In y r -> In y l.
Proof.
  intros H y Hy.
  destruct (sorted_from_In key l [] r H y Hy) as [[] | Hin]. exact Hin.
Qed.

Lemma keyed_set_values {V} (d : keyed V) (k : json) (v : V) (k' : json) (v' : V) :
  In (k', v') (keyed_set d k v) -> v' = v \/ In (k', v') d.
Proof.
  induction d as [| [k0 v0] d IH]; simpl.
  - intros [H | []]. injection H as _ <-. left. reflexivity.
  - destruct (py_same k0 k); simpl.
    + intros [H | H].
      * injection H as _ <-. left. reflexivity.
      * right. right. exact H.
    + intros [H | H].
      * right. left. exact H.
      * destruct (IH H) as [-> | Hin];
          [left; reflexivity | right; right; exact Hin].
Qed.

(** The values of the dict built from a list of collections are items of
    that list. *)
Lemma by_name_values (collections : list dict) (d : keyed dict) :
  by_name collections = Normal d ->
  forall k v, In (k, v) d -> In v collections.
Proof.
  unfold by_name. intros H k v Hin.
  assert (Hgen : In (k, v) (@nil (json * dict)) \/ In v collections);
    [| destruct Hgen as [[] | Hc]; exact Hc].
  revert H Hin. generalize (@nil (json * dict)) as d0. revert d.
  induction collections as [| c cs IH]; intros d d0 H Hin; simpl in H.
  - injection H as <-. left. exact Hin.
  - destruct (py_item c "name") as [key | e]; simpl in H;
      [| rewrite fold_left_raise in H; discriminate].
    destruct (hashable key);
      [| rewrite fold_left_raise in H; discriminate].
    destruct (IH d (keyed_set d0 key c) H Hin) as [Hset | Hcs].
    + destruct (keyed_set_values d0 key c k v Hset) as [-> | Hd0];
        [right; left; reflexivity | left; exact Hd0].
    + right. right. exact Hcs.
Qed.

(** The inventory of a store holds statistics built by
    [get_collection_info] only. *)
Lemma get_all_collections_plain
    (env : Env) (url : string) (api_key : option string) (cs : list dict) :
  get_all_collections_with_counts env url api_key = Normal cs ->
  forall c, In c cs -> plain_info c.
Proof.
  unfold get_all_collections_with_counts. intros H c Hc.
  destruct (negb _).
  - injection H as <-. destruct Hc.
  - destruct (py_iter _) as [names | e]; simpl in H; [| discriminate].
    apply (py_sorted_In _ _ _ H) in Hc.
    apply in_map_iff in Hc. destruct Hc as [name [<- _]].
    destruct (get_collection_info_shape env url name api_key)
      as [(s & p & v & i & ->) | (msg & ->)]; reflexivity.
Qed.

Lemma by_name_plain
    (env : Env) (url : string) (api_key : option string)
    (cs : list dict) (d : keyed dict) :
  get_all_collections_with_counts env url api_key = Normal cs ->
  by_name cs = Normal d ->
  plain_values d.
Proof.
  intros Hcs Hd k v Hin.
  apply (get_all_collections_plain env url api_key cs Hcs).
  apply (by_name_values cs d Hd k v Hin).
Qed.

(** A comparison of all collections that returns has run the loop to its
    end: its report holds the variables of the loop, which satisfy the
    invariant, their difference and the reading of the clock. *)
Lemma compare_all_returns (env : Env) (st st' : State) (report : dict) :
  compare_all env st = (Normal report, st') ->
  exists (t : totals) (total_difference : json)
         (all_names local_names vps_names : Z),
    loop_invariant t /\
    py_sub (total_local_points t) (total_vps_points t) =
      Normal total_difference /\
    report =
    [("timestamp", JStr (now_isoformat env (clock_reads st)));
     ("summary",
      JDict [("total_collections", JInt all_names);
             ("local_collections", JInt local_names);
             ("vps_collections", JInt vps_names);
             ("out_of_sync", JInt (out_of_sync t));
             ("total_local_points", total_local_points t);
             ("total_vps_points", total_vps_points t);
             ("total_difference", total_difference)]);
     ("collections", JList (map JDict (comparison t)))].
Proof.
  unfold compare_all, bindM, lift. intros H.
  destruct (get_all_collections_with_counts env (SOURCE_REST_URL env) None)
    as [lc | e] eqn:Hlc; [| discriminate].
  destruct (get_all_collections_with_counts env (TARGET_REST_URL env)
              (Some (TARGET_API_KEY env))) as [vc | e] eqn:Hvc;
    [| discriminate].
  destruct (by_name lc) as [ld | e] eqn:Hld; [| discriminate].
  destruct (by_name vc) as [vd | e] eqn:Hvd; [| discriminate].
  destruct (py_sorted (fun k => k) (set_union (keys ld) (keys vd)))
    as [names | e]; [| discriminate].
  destruct (compare_loop ld vd names) as [t | e] eqn:Hloop; [| discriminate].
  unfold now, ret in H.
  destruct (py_sub (total_local_points t) (total_vps_points t))
    as [total_difference | e] eqn:Hdiff; [| discriminate].
  injection H as <- _.
  exists t, total_difference. do 3 eexists.
  split; [| split; [exact Hdiff | reflexivity]].
  apply (compare_loop_invariant ld vd names t); [| | exact Hloop].
  - apply (by_name_plain env _ _ lc ld Hlc Hld).
  - apply (by_name_plain env _ _ vc vd Hvc Hvd).
Qed.

(** The comparison tool without a collection name is the comparison of
    all collections. *)
Lemma call_tool_compare_all
    (env : Env) (args : dict) (st st' : State) (report : json) :
  truthy (dict_get args "collection_name" JNull) = false ->
  call_tool env "qdrant_compare_collections" args st = (Normal report, st') ->
  exists d, report = JDict d /\ compare_all env st = (Normal d, st').
Proof.
  intros Hall. unfold call_tool. simpl. rewrite Hall. unfold bindM, ret.
  destruct (compare_all env st) as [[d | e] s]; intros H; [| discriminate].
  injection H as <- <-. exists d. split; reflexivity.
Qed.

(** Two stores that report [1e999] points for the collection A: the
    parser reads [inf] on both sides, the two counts are equal and their
    difference is [nan].  The entry has [in_sync] true and a difference
    that is not 0. *)
Lemma infinite_counts_in_sync_with_a_difference :
  call_tool Fixture.overflowing "qdrant_compare_collections" [] initial =
  (Normal
     (JDict
        [("timestamp", JStr "2025-11-23T10:00:00");
         ("summary",
          JDict [("total_collections", JInt 1);
                 ("local_collections", JInt 1);
                 ("vps_collections", JInt 1);
                 ("out_of_sync", JInt 0);
                 ("total_local_points", Fixture.infinity);
                 ("total_vps_points", Fixture.infinity);
                 ("total_difference", JFloat S754_nan)]);
         ("collections", JList [Fixture.entry_infinite])]),
   mkState [] 1) /\
  field "in_sync" Fixture.entry_infinite = Some (JBool true) /\
  field "difference" Fixture.entry_infinite = Some (JFloat S754_nan) /\
  py_eq (JFloat S754_nan) (JInt 0) = false.
Proof. repeat split. Qed.

(** C4, amended.  In the report of a comparison of all collections, every
    entry with [in_sync] true has [local_only] false and [vps_only] false,
    and a difference of 0 when both its point counts are integers. *)
Theorem in_sync_entry_invariant
    (env : Env) (args : dict) (st st' : State) (report : json)
    (entries : list json) (e : json) :
  truthy (dict_get args "collection_name" JNull) = false ->
  call_tool env "qdrant_compare_collections" args st = (Normal report, st') ->
  field "collections" report = Some (JList entries) ->
  In e entries ->
  field "in_sync" e = Some (JBool true) ->
  field "local_only" e = Some (JBool false) /\
  field "vps_only" e = Some (JBool false) /\
  (integer_points e = true -> field "difference" e = Some (JInt 0)).
Proof.
  intros Hall Hcall Hentries Hin Hsync.
  destruct (call_tool_compare_all env args st st' report Hall Hcall)
    as (d & -> & Hcmp).
  destruct (compare_all_returns env st st' d Hcmp)
    as (t & diff & a & l & v & Hinv & _ & ->).
  simpl in Hentries. injection Hentries as <-.
  exact (inv_entries t Hinv e Hin Hsync).
Qed.


Lemma in_sync_entry_invariant_witness :
  field "local_only" Fixture.entry_A = Some (JBool false) /\
  field "vps_only" Fixture.entry_A = Some (JBool false) /\
  (integer_points Fixture.entry_A = true ->
   field "difference" Fixture.entry_A = Some (JInt 0)).
Proof.
  apply (in_sync_entry_invariant
           (Fixture.scenario Fixture.plain) [] initial (mkState [] 1)
           (Fixture.scenario_report "2025-11-23T10:00:00")
           [Fixture.entry_A; Fixture.entry_B; Fixture.entry_C]
           Fixture.entry_A).
  - reflexivity.
  - reflexivity.
  - reflexivity.
  - left. reflexivity.
  - reflexivity.
Defined.


(** ** The comparison of all collections returns on well-formed stores *)

Lemma insert_sorted_strings {A} (key : A -> json) (x : A) (l : list A) :
  (exists s, key x = JStr s) ->
  (forall y, In y l -> exists s, key y = JStr s) ->
  exists r, insert_sorted key x l = Normal r.
Proof.
  intros [s Hx] Hl. induction l as [| y l IH]; simpl.
  - eexists. reflexivity.
  - destruct (Hl y (or_introl eq_refl)) as [t Hy]. rewrite Hx, Hy. simpl.
    destruct (String.ltb s t); [eexists; reflexivity |].
    destruct IH as [r Hr].
    + intros z Hz. apply Hl. right. exact Hz.
    + rewrite Hr. simpl. eexists. reflexivity.
Qed.

Lemma sorted_from_strings {A} (key : A -> json) (l s : list A) :
  (forall y, In y l -> exists t, key y = JStr t) ->
  (forall y, In y s -> exists t, key y = JStr t) ->
  exists r,
    fold_left (fun acc x => (s <- acc ;; insert_sorted key x s)%exc) l
      (Normal s) = Normal r.
Proof.
  revert s. induction l as [| x l IH]; intros s Hl Hs; simpl.
  - eexists. reflexivity.
  - destruct (insert_sorted_strings key x s) as [s' Hs'].
    + apply Hl. left. reflexivity.
    + exact Hs.
    + rewrite Hs'. apply IH.
      * intros y Hy. apply Hl. right. exact Hy.
      * intros y Hy.
        destruct (insert_sorted_In key x s s' Hs' y Hy) as [-> | Hin].
        -- apply Hl. left. reflexivity.
        -- apply Hs. exact Hin.
Qed.

(** [sorted] returns when every key is a string. *)
Lemma py_sorted_strings {A} (key : A -> json) (l : list A) :
  (forall y, In y l -> exists t, key y = JStr t) ->
  exists r, py_sorted key l = Normal r.
Proof.
  intros Hl. apply sorted_from_strings; [exact Hl | intros y []].
Qed.

Lemma keyed_set_keys {V} (d : keyed V) (k : json) (v : V) (k' : json) :
  In k' (keys (keyed_set d k v)) -> k' = k \/ In k' (keys d).
Proof.
  unfold keys. induction d as [| [k0 v0] d IH]; simpl.
  - intros [<- | []]. left. reflexivity.
  - destruct (py_same k0 k); simpl.
    + intros H. right. exact H.
    + intros [<- | H].
      * right. left. reflexivity.
      * destruct (IH H) as [-> | Hin];
          [left; reflexivity | right; right; exact Hin].
Qed.

(** Building the dict of a list of countable statistics returns, and its
    keys are strings. *)
Lemma by_name_countable (collections : list dict) :
  (forall c, In c collections -> countable_info c) ->
  exists d,
    by_name collections = Normal d /\
    forall k, In k (keys d) -> exists s, k = JStr s.
Proof.
  unfold by_name. intros Hcs.
  assert (Hnil : forall k, In k (keys (@nil (json * dict))) ->
                           exists s, k = JStr s) by (intros k []).
  revert Hnil. generalize (@nil (json * dict)) as d0.
  induction collections as [| c cs IH]; intros d0 Hd0; simpl.
  - exists d0. split; [reflexivity | exact Hd0].
  - destruct (Hcs c (or_introl eq_refl)) as [[s Hname] _].
    unfold py_item. rewrite Hname. simpl.
    apply IH.
    + intros c' Hc'. apply Hcs. right. exact Hc'.
    + intros k Hk.
      destruct (keyed_set_keys d0 (JStr s) c k Hk) as [-> | Hin].
      * exists s. reflexivity.
      * apply Hd0. exact Hin.
Qed.

(** The inventory of a well-formed side returns, and holds countable
    statistics. *)
Lemma get_all_collections_well_formed
    (env : Env) (url : string) (api_key : option string) :
  well_formed_side env url api_key ->
  exists cs,
    get_all_collections_with_counts env url api_key = Normal cs /\
    forall c, In c cs -> countable_info c.
Proof.
  intros Hwf. unfold get_all_collections_with_counts.
  destruct (negb _) eqn:Hstatus.
  - exists []. split; [reflexivity | intros c []].
  - unfold well_formed_side in Hwf.
    destruct (probe_shapes env url api_key)
      as [[names E] | [[code E] | [msg E]]];
      rewrite E in *; try discriminate.
    simpl.
    assert (Hinfos :
      forall c,
        In c (map (fun name => get_collection_info env url name api_key) names) ->
        countable_info c).
    { intros c Hc. apply in_map_iff in Hc. destruct Hc as [name [<- Hname]].
      destruct (Hwf names name eq_refl Hname) as [[s ->] Hpoints].
      split; [| exact Hpoints].
      exists s.
      destruct (get_collection_info_shape env url (JStr s) api_key)
        as [(st & p & v & i & ->) | (m & ->)]; reflexivity. }
    destruct (py_sorted_strings
                (fun x => dict_get x "name" (JStr ""))
                (map (fun name => get_collection_info env url name api_key)
                   names)) as [r Hr].
    + intros c Hc. destruct (Hinfos c Hc) as [[s Hs] _].
      exists s. unfold dict_get. rewrite Hs. reflexivity.
    + exists r. split; [exact Hr |].
      intros c Hc. apply Hinfos. apply (py_sorted_In _ _ _ Hr c Hc).
Qed.

Lemma keyed_get_countable (d : keyed dict) (k : json) :
  (forall k' v, In (k', v) d -> countable_info v) ->
  as_int (dict_get (keyed_get d k missing_info) "points_count" (JInt 0))
  <> None.
Proof.
  intros Hd. unfold keyed_get.
  destruct (keyed_find d k) as [v |] eqn:Hfind; [| discriminate].
  induction d as [| [k' v'] d IH]; simpl in Hfind; [discriminate |].
  destruct (py_same k' k).
  - injection Hfind as <-. apply (Hd k' v'). left. reflexivity.
  - apply IH; [| exact Hfind].
    intros k0 v0 Hin. apply (Hd k0 v0). right. exact Hin.
Qed.

(** The loop returns when both dicts hold countable statistics. *)
Lemma compare_loop_returns
    (local_dict vps_dict : keyed dict) (names : list json) :
  (forall k v, In (k, v) local_dict -> countable_info v) ->
  (forall k v, In (k, v) vps_dict -> countable_info v) ->
  exists t total_local total_vps,
    compare_loop local_dict vps_dict names = Normal t /\
    total_local_points t = JInt total_local /\
    total_vps_points t = JInt total_vps.
Proof.
  intros Hl Hv. unfold compare_loop.
  assert (Hgen : forall entries a b out,
    exists t total_local total_vps,
      fold_left
        (fun acc name =>
           (a <- acc ;; compare_one local_dict vps_dict a name)%exc)
        names (Normal (mkTotals entries (JInt a) (JInt b) out)) = Normal t /\
      total_local_points t = JInt total_local /\
      total_vps_points t = JInt total_vps);
    [| apply Hgen].
  induction names as [| name names IH]; intros entries a b out; simpl.
  - exists (mkTotals entries (JInt a) (JInt b) out), a, b.
    repeat split.
  - unfold compare_one at 2.
    cbn [total_local_points total_vps_points comparison out_of_sync].
    pose proof (keyed_get_countable local_dict name Hl) as Hlp.
    pose proof (keyed_get_countable vps_dict name Hv) as Hvp.
    destruct (as_int (dict_get (keyed_get local_dict name missing_info)
                        "points_count" (JInt 0))) as [n |] eqn:Hn;
      [| contradiction].
    destruct (as_int (dict_get (keyed_get vps_dict name missing_info)
                        "points_count" (JInt 0))) as [m |] eqn:Hm;
      [| contradiction].
    rewrite (py_iadd_integers (JInt a) _ a n eq_refl Hn).
    rewrite (py_iadd_integers (JInt b) _ b m eq_refl Hm).
    rewrite (py_sub_integers _ _ n m Hn Hm).
    cbn [bind]. apply IH.
Qed.

(** On two well-formed sides the comparison of all collections returns a
    report, reads the clock once and launches nothing. *)
Theorem compare_all_total (env : Env) (st : State) :
  well_formed_side env (SOURCE_REST_URL env) None ->
  well_formed_side env (TARGET_REST_URL env) (Some (TARGET_API_KEY env)) ->
  exists report,
    compare_all env st =
    (Normal report, mkState (spawned st) (S (clock_reads st))).
Proof.
  intros Hlocal Hvps.
  destruct (get_all_collections_well_formed env _ _ Hlocal) as (lc & Hlc & Hlcs).
  destruct (get_all_collections_well_formed env _ _ Hvps) as (vc & Hvc & Hvcs).
  destruct (by_name_countable lc Hlcs) as (ld & Hld & Hlkeys).
  destruct (by_name_countable vc Hvcs) as (vd & Hvd & Hvkeys).
  destruct (py_sorted_strings (fun k => k) (set_union (keys ld) (keys vd)))
    as [names Hnames].
  { intros k Hk. unfold set_union in Hk. apply in_app_or in Hk.
    destruct Hk as [Hk | Hk]; [apply Hlkeys; exact Hk |].
    apply filter_In in Hk. apply Hvkeys. apply Hk. }
  destruct (compare_loop_returns ld vd names) as (t & a & b & Ht & Ha & Hb).
  { intros k v Hin. apply Hlcs. apply (by_name_values lc ld Hld k v Hin). }
  { intros k v Hin. apply Hvcs. apply (by_name_values vc vd Hvd k v Hin). }
  unfold compare_all, bindM, lift.
  rewrite Hlc, Hvc, Hld, Hvd, Hnames, Ht. unfold now, ret.
  rewrite Ha, Hb. eexists. reflexivity.
Qed.

(** Both sides of the scenario are well formed. *)
Example scenario_sides_well_formed (base : Env) :
  well_formed_side (Fixture.scenario base) Fixture.local_url None /\
  well_formed_side (Fixture.scenario base) Fixture.vps_url
    (Some (TARGET_API_KEY base)).
Proof.
  split; intros names name H Hin; vm_compute in H; injection H as <-;
    destruct Hin as [<- | [<- | []]];
    (split; [eexists; reflexivity | vm_compute; discriminate]).
Qed.

(** ** Names that cannot be keys

    A name that is a list or a dict cannot be the key of a dict: a
    comparison over an inventory that lists such a name raises, whatever
    [sorted] made of it before. *)

Lemma insert_sorted_keeps {A} (key : A -> json) (x : A) (l r : list A) :
  insert_sorted key x l = Normal r -> forall y, y = x \/ In y l -> In y r.
Proof.
  revert r. induction l as [| z l IH]; intros r H y Hy; simpl in H.
  - injection H as <-. destruct Hy as [Hy | []]. left. symmetry. exact Hy.
  - destruct (py_lt (key x) (key z)) as [[|] | e]; simpl in H;
      [| | discriminate].
    + injection H as <-. destruct Hy as [Hy | Hy];
        [left; symmetry; exact Hy | right; exact Hy].
    + destruct (insert_sorted key x l) as [r' | e]; simpl in H;
        [| discriminate].
      injection H as <-.
      destruct Hy as [Hy | [Hy | Hy]].
      * right. apply (IH r' eq_refl). left. exact Hy.
      * left. exact Hy.
      * right. apply (IH r' eq_refl). right. exact Hy.
Qed.

Lemma sorted_from_keeps {A} (key : A -> json) (l s r : list A) :
  fold_left (fun acc x => (s <- acc ;; insert_sorted key x s)%exc) l (Normal s)
  = Normal r ->
  forall y, In y s \/ In y l -> In y r.
Proof.
  revert s r. induction l as [| x l IH]; intros s r H y Hy; simpl in H.
  - injection H as <-. destruct Hy as [Hy | []]. exact Hy.
  - destruct (insert_sorted key x s) as [s' | e] eqn:Hins.
    + apply (IH s' r H). destruct Hy as [Hy | [Hy | Hy]].
      * left. apply (insert_sorted_keeps key x s s' Hins). right. exact Hy.
      * left. apply (insert_sorted_keeps key x s s' Hins). left.
        symmetry. exact Hy.
      * right. exact Hy.
    + rewrite fold_left_raise in H. discriminate.
Qed.

(** [sorted] loses no item. *)
Lemma py_sorted_keeps {A} (key : A -> json) (l r : list A) :
  py_sorted key l = Normal r -> forall y, In y l -> In y r.
Proof.
  intros H y Hy. apply (sorted_from_keeps key l [] r H). right. exact Hy.
Qed.

Lemma by_name_unhashable (collections : list dict) (c : dict) (k : json) :
  In c collections ->
  lookup "name" c = Some k ->
  hashable k = false ->
  exists e, by_name collections = Raise e.
Proof.
  unfold by_name. generalize (@nil (json * dict)) as d0.
  induction collections as [| c' cs IH]; intros d0 Hin Hname Hk;
    [destruct Hin |].
  simpl. destruct Hin as [Heq | Hin].
  - subst c'. unfold py_item. rewrite Hname. simpl. rewrite Hk.
    rewrite fold_left_raise. eexists. reflexivity.
  - destruct (py_item c' "name") as [k' | e]; simpl;
      [| rewrite fold_left_raise; eexists; reflexivity].
    destruct (hashable k');
      [| rewrite fold_left_raise; eexists; reflexivity].
    apply (IH _ Hin Hname Hk).
Qed.

(** An inventory that lists a name that is not hashable returns no dict. *)
Lemma inventory_unhashable
    (env : Env) (url : string) (api_key : option string)
    (names : list json) (name : json) (cs : list dict) :
  lookup "collections" (check_qdrant_connectivity env url api_key) =
    Some (JList names) ->
  In name names ->
  hashable name = false ->
  get_all_collections_with_counts env url api_key = Normal cs ->
  exists e, by_name cs = Raise e.
Proof.
  intros Hconn Hin Hk Hcs.
  unfold get_all_collections_with_counts in Hcs.
  destruct (probe_shapes env url api_key)
    as [[names' E] | [[code E] | [msg E]]];
    rewrite E in *; try discriminate.
  simpl in Hconn, Hcs. injection Hconn as <-.
  apply (by_name_unhashable cs (get_collection_info env url name api_key) name).
  - apply (py_sorted_keeps _ _ _ Hcs).
    apply (in_map (fun n => get_collection_info env url n api_key)
             names' name Hin).
  - destruct (get_collection_info_shape env url name api_key)
      as [(s & p & v & i & ->) | (m & ->)]; reflexivity.
  - exact Hk.
Qed.

(** A comparison of all collections raises when one of the stores lists a
    name that is a list or a dict. *)
Lemma compare_all_unhashable_name
    (env : Env) (st : State) (names : list json) (name : json) :
  lookup "collections"
    (check_qdrant_connectivity env (SOURCE_REST_URL env) None) =
    Some (JList names) \/
  lookup "collections"
    (check_qdrant_connectivity env (TARGET_REST_URL env)
       (Some (TARGET_API_KEY env))) =
    Some (JList names) ->
  In name names ->
  hashable name = false ->
  exists e, compare_all env st = (Raise e, st).
Proof.
  intros Hconn Hin Hk. unfold compare_all, bindM, lift.
  destruct (get_all_collections_with_counts env (SOURCE_REST_URL env) None)
    as [lc | e] eqn:Hlc; [| eexists; reflexivity].
  destruct (get_all_collections_with_counts env (TARGET_REST_URL env)
              (Some (TARGET_API_KEY env))) as [vc | e] eqn:Hvc;
    [| eexists; reflexivity].
  destruct Hconn as [Hconn | Hconn].
  - destruct (inventory_unhashable env _ _ names name lc Hconn Hin Hk Hlc)
      as [e ->].
    eexists. reflexivity.
  - destruct (by_name lc) as [ld | e]; [| eexists; reflexivity].
    destruct (inventory_unhashable env _ _ names name vc Hconn Hin Hk Hvc)
      as [e ->].
    eexists. reflexivity.
Qed.
